(** * Library Quest: the record-management and derived-state engine

    A shallow embedding of [LibraryManager] from [src/library_manager.py]
    (the class behind the Streamlit front end) together with the
    properties of its operations.

    Modelling conventions.
    - A Python [int] is a [Z]; a Python [str] is the list of its Unicode
      code points ([list N]), so that [str.strip()] and the emoji icons of
      the achievements table are represented exactly.
    - A book is a [dict] with a fixed set of keys; it is a record here.
      The library is the Python list of those dicts, in insertion order.
    - Every method mutates [self]; methods are state transformers on the
      record [LibraryManager], returning the Python return value next to
      the new state.
    - Writes to the two JSON files are recorded, in order, in the field
      [writes] of the state: one entry per [json.dump] attempted.
    - Values read from the clock ([datetime.now()]) are arguments of the
      operation that reads them.  A calendar date is its proleptic
      Gregorian ordinal ([date.toordinal()]), from 1 for 0001-01-01 to
      3652059 for 9999-12-31; [d + timedelta(days=1)] is [d + 1] when
      that is still a date and raises [OverflowError] otherwise.
    - A call that can raise returns a [Result] next to the state of the
      manager at the moment it returns or raises. *)

From Stdlib Require Import PrimFloat.
From stdpp Require Import prelude strings gmap.

Local Open Scope Z_scope.

(** ** Python strings *)

Definition str := list N.

(** The code points of an ASCII literal. *)
Definition lit (s : string) : str :=
  Ascii.N_of_ascii <$> String.list_ascii_of_string s.

(** [Py_UNICODE_ISSPACE]: the characters removed by [str.strip()]. *)
Definition isspace (c : N) : bool :=
  (((9 <=? c) && (c <=? 13)) || ((28 <=? c) && (c <=? 32))
   || (c =? 133) || (c =? 160) || (c =? 5760)
   || ((8192 <=? c) && (c <=? 8202))
   || (c =? 8232) || (c =? 8233) || (c =? 8239) || (c =? 8287)
   || (c =? 12288))%N.

Fixpoint lstrip (s : str) : str :=
  match s with
  | [] => []
  | c :: s' => if isspace c then lstrip s' else s
  end.

Definition rstrip (s : str) : str := reverse (lstrip (reverse s)).

Definition strip (s : str) : str := rstrip (lstrip s).

(** Truth value of a string: the empty string is false. *)
Definition str_truthy (s : str) : bool :=
  match s with [] => false | _ => true end.

(** ** Dates *)

Definition date := Z.

(** [date.max.toordinal()], the ordinal of 9999-12-31. *)
Definition MAXORDINAL : Z := 3652059.

(** ** Exceptions *)

Inductive Exception := OverflowError.

(** What a call that can raise does: it returns a value or raises. *)
Inductive Result (A : Type) :=
  | Returned (a : A)
  | Raised (e : Exception).
Arguments Returned {A} a.
Arguments Raised {A} e.

(** [d + timedelta(days=n)]: the date [n] days later, or
    [OverflowError] ("date value out of range") when the result is not
    between [date.min] and [date.max]. *)
Definition date_add_days (d : date) (n : Z) : Result date :=
  if bool_decide (1 ≤ d + n ≤ MAXORDINAL) then Returned (d + n)
  else Raised OverflowError.

(** ** Book records *)

Module Book.

Record t := mk {
  id : Z;
  title : str;
  author : str;
  year : Z;
  genre : str;
  read : bool;
  rating : option float;
  notes : str;
  added_date : str;
  progress : Z;
  cover_image : option str
}.

(** [book["progress"] = v] *)
Definition set_progress (v : Z) (b : t) : t :=
  mk (id b) (title b) (author b) (year b) (genre b) (read b) (rating b)
     (notes b) (added_date b) v (cover_image b).

(** [book["read"] = v] *)
Definition set_read (v : bool) (b : t) : t :=
  mk (id b) (title b) (author b) (year b) (genre b) v (rating b)
     (notes b) (added_date b) (progress b) (cover_image b).

End Book.

(** A book object as found in [library.json]: the three keys that
    [_load_library] defaults may be missing. *)
Record StoredBook := {
  sb_id : Z;
  sb_title : str;
  sb_author : str;
  sb_year : Z;
  sb_genre : str;
  sb_read : bool;
  sb_rating : option float;
  sb_notes : option str;
  sb_added_date : str;
  sb_progress : option Z;
  sb_cover_image : option (option str)
}.

(** What [open] and [json.load] find at [LIBRARY_FILE]. *)
Inductive LibraryFile :=
  | FileNotFound
  | JSONDecodeError
  | JsonNotAList
  | JsonList (data : list StoredBook).

(** ** User progress state *)

Record UserData := mkUserData {
  reading_streak : Z;
  last_reading_date : option date;
  monthly_goal : Z;
  books_read_this_month : Z;
  month : Z
}.

(** What [open] and [json.load] find at [USER_DATA_FILE]: no file or no
    JSON, or an object holding the five keys of the user state, as
    [_save_user_data] writes it.  Any other JSON value, which
    [_load_user_data] would return as it is, is outside the model. *)
Inductive UserDataFile :=
  | UserFileUnreadable
  | UserFileJson (data : UserData).

(** ** The manager *)

Inductive Write :=
  | WriteLibrary (data : list Book.t)
  | WriteUserData (data : UserData).

Record LibraryManager := mkManager {
  library : list Book.t;
  user_data : UserData;
  writes : list Write
}.

Definition set_library (l : list Book.t) (self : LibraryManager) : LibraryManager :=
  mkManager l (user_data self) (writes self).

Definition set_user_data (u : UserData) (self : LibraryManager) : LibraryManager :=
  mkManager (library self) u (writes self).

(** In-place mutation of the dict at position [i] of [self.library]. *)
Definition set_book (i : nat) (b : Book.t) (self : LibraryManager) : LibraryManager :=
  set_library (<[i := b]> (library self)) self.

(** ** Constants *)

(** [year in VALID_YEARS], where [VALID_YEARS] is
    [range(1000, datetime.now().year + 1)] and [year_now] is the year read
    from the clock when the script is run. *)
Definition VALID_YEARS (year_now : Z) (year : Z) : bool :=
  bool_decide (1000 ≤ year) && bool_decide (year < year_now + 1).

Record Criteria := mkCriteria {
  books : Z;
  icon : str
}.

(** The dict [ACHIEVEMENTS], in insertion order (the order in which
    [.items()] yields it). *)
Definition ACHIEVEMENTS : list (str * Criteria) :=
  [ (lit "Novice Reader", mkCriteria 5 [127942%N]);
    (lit "Book Worm", mkCriteria 20 [128027%N]);
    (lit "Literary Master", mkCriteria 50 [128218%N]) ].

(** ** Loading *)

(** [book.setdefault(...)] for the keys ["notes"], ["progress"] and
    ["cover_image"]. *)
Definition setdefaults (b : StoredBook) : Book.t :=
  Book.mk (sb_id b) (sb_title b) (sb_author b) (sb_year b) (sb_genre b)
    (sb_read b) (sb_rating b)
    (default [] (sb_notes b))
    (sb_added_date b)
    (default 0 (sb_progress b))
    (default None (sb_cover_image b)).

Definition _load_library (file : LibraryFile) : list Book.t :=
  match file with
  | JsonList data => setdefaults <$> data
  | JsonNotAList => []
  | FileNotFound | JSONDecodeError => []
  end.

Definition _load_user_data (month_now : Z) (file : UserDataFile) : UserData :=
  match file with
  | UserFileJson data => data
  | UserFileUnreadable => mkUserData 0 None 0 0 month_now
  end.

(** [LibraryManager.__init__] (the recommendations table, which no
    operation below reads, is left out). *)
Definition init (month_now : Z) (lf : LibraryFile) (uf : UserDataFile)
  : LibraryManager :=
  mkManager (_load_library lf) (_load_user_data month_now uf) [].

(** ** Saving *)

Definition _save_library (self : LibraryManager) : LibraryManager :=
  mkManager (library self) (user_data self)
    (writes self ++ [WriteLibrary (library self)]).

Definition _save_user_data (self : LibraryManager) : LibraryManager :=
  mkManager (library self) (user_data self)
    (writes self ++ [WriteUserData (user_data self)]).

(** ** Library Store operations *)

Definition add_book (year_now : Z) (now_iso : str)
    (title author : str) (year : Z) (genre : str) (read : bool)
    (rating : option float) (notes : str) (cover_image : option str)
    (self : LibraryManager) : bool * LibraryManager :=
  if negb (str_truthy (strip title) && str_truthy (strip author)
           && VALID_YEARS year_now year)
  then (false, self)
  else
    let book :=
      Book.mk (Z.of_nat (length (library self)) + 1)
        (strip title) (strip author) year genre read rating notes
        now_iso 0 cover_image in
    let self := set_library (library self ++ [book]) self in
    let self := _save_library self in
    (true, self).

Definition remove_book (book_id : Z) (self : LibraryManager)
  : bool * LibraryManager :=
  let initial_length := length (library self) in
  let self :=
    set_library (filter (λ book, Book.id book ≠ book_id) (library self)) self in
  if bool_decide (length (library self) < initial_length)%nat
  then (true, _save_library self)
  else (false, self).

(** ** Progress Tracker *)

Definition set_reading_streak (v : Z) (u : UserData) : UserData :=
  mkUserData v (last_reading_date u) (monthly_goal u)
    (books_read_this_month u) (month u).

Definition set_last_reading_date (v : option date) (u : UserData) : UserData :=
  mkUserData (reading_streak u) v (monthly_goal u)
    (books_read_this_month u) (month u).

Definition set_monthly_goal_field (v : Z) (u : UserData) : UserData :=
  mkUserData (reading_streak u) (last_reading_date u) v
    (books_read_this_month u) (month u).

Definition set_books_read_this_month (v : Z) (u : UserData) : UserData :=
  mkUserData (reading_streak u) (last_reading_date u) (monthly_goal u)
    v (month u).

Definition set_month (v : Z) (u : UserData) : UserData :=
  mkUserData (reading_streak u) (last_reading_date u) (monthly_goal u)
    (books_read_this_month u) v.

(** [today] is [datetime.now().date()].  The sum
    [last_date + timedelta(days=1)] is evaluated when today is not the
    last reading date, before anything is assigned: if it raises, the
    manager is as it was. *)
Definition _update_reading_streak (today : date) (self : LibraryManager)
  : Result unit * LibraryManager :=
  let finish (self : LibraryManager) :=
    _save_user_data
      (set_user_data (set_last_reading_date (Some today) (user_data self)) self) in
  match last_reading_date (user_data self) with
  | Some last_date =>
      if bool_decide (today = last_date) then (Returned tt, self)
      else
        match date_add_days last_date 1 with
        | Raised e => (Raised e, self)
        | Returned next_day =>
            if bool_decide (today = next_day) then
              (Returned tt,
               finish (set_user_data
                         (set_reading_streak (reading_streak (user_data self) + 1)
                            (user_data self)) self))
            else
              (Returned tt,
               finish (set_user_data (set_reading_streak 1 (user_data self)) self))
        end
  | None =>
      (Returned tt,
       finish (set_user_data (set_reading_streak 1 (user_data self)) self))
  end.

(** [current_month] is [datetime.now().month]. *)
Definition _update_monthly_goal (current_month : Z) (self : LibraryManager)
  : LibraryManager :=
  let self :=
    if bool_decide (month (user_data self) ≠ current_month) then
      set_user_data
        (set_month current_month
           (set_books_read_this_month 0 (user_data self))) self
    else self in
  let self :=
    set_user_data
      (set_books_read_this_month
         (books_read_this_month (user_data self) + 1) (user_data self)) self in
  _save_user_data self.

Definition set_monthly_goal (goal : Z) (self : LibraryManager)
  : LibraryManager :=
  _save_user_data
    (set_user_data (set_monthly_goal_field (Z.max 0 goal) (user_data self)) self).

(** The completion event: the two calls made by [update_progress] when a
    book is marked read.  When the first raises, the second is not
    made. *)
Definition on_book_completed (today : date) (current_month : Z)
    (self : LibraryManager) : Result unit * LibraryManager :=
  match _update_reading_streak today self with
  | (Returned _, self) => (Returned tt, _update_monthly_goal current_month self)
  | (Raised e, self) => (Raised e, self)
  end.

(** The loop [for book in self.library] of [update_progress], at position
    [i] with [rest] still to visit. *)
Fixpoint update_progress_loop (today : date) (current_month : Z)
    (book_id progress : Z) (i : nat) (rest : list Book.t)
    (self : LibraryManager) : Result bool * LibraryManager :=
  match rest with
  | [] => (Returned false, self)
  | book :: rest' =>
      if bool_decide (Book.id book = book_id) then
        let book := Book.set_progress (Z.min 100 (Z.max 0 progress)) book in
        let self := set_book i book self in
        if bool_decide (progress = 100) && negb (Book.read book) then
          let book := Book.set_read true book in
          let self := set_book i book self in
          match on_book_completed today current_month self with
          | (Returned _, self) => (Returned true, _save_library self)
          | (Raised e, self) => (Raised e, self)
          end
        else (Returned true, _save_library self)
      else
        update_progress_loop today current_month book_id progress (S i) rest' self
  end.

Definition update_progress (today : date) (current_month : Z)
    (book_id progress : Z) (self : LibraryManager)
  : Result bool * LibraryManager :=
  update_progress_loop today current_month book_id progress 0%nat
    (library self) self.

Definition get_achievements (self : LibraryManager) : list str :=
  let total_books := Z.of_nat (length (library self)) in
  foldl (λ achieved '(name, criteria),
           if bool_decide (books criteria ≤ total_books)
           then achieved ++ [icon criteria ++ lit " " ++ name]
           else achieved)
        [] ACHIEVEMENTS.

(** [listAll]: the callers iterate over [manager.library] directly. *)
Definition listAll (self : LibraryManager) : list Book.t := library self.

(** ** Predicates used in the statements *)

(** The data-model invariant: a book at 100% is marked read. *)
Definition complete_implies_read (b : Book.t) : Prop :=
  Book.progress b = 100 → Book.read b = true.

Definition library_invariant (l : list Book.t) : Prop :=
  Forall complete_implies_read l.

Definition stored_invariant (l : list StoredBook) : Prop :=
  Forall (λ b, sb_progress b = Some 100 → sb_read b = true) l.

(** [min(100, max(0, p))] *)
Definition clamp (p : Z) : Z := Z.min 100 (Z.max 0 p).

(** What [update_progress] does when its loop stops on [book], found at
    position [i]. *)
Definition progress_updated (today : date) (current_month : Z)
    (progress : Z) (i : nat) (book : Book.t) (self : LibraryManager)
  : Result bool * LibraryManager :=
  let book' := Book.set_progress (clamp progress) book in
  if bool_decide (progress = 100) && negb (Book.read book) then
    match on_book_completed today current_month
            (set_book i (Book.set_read true book') self) with
    | (Returned _, self) => (Returned true, _save_library self)
    | (Raised e, self) => (Raised e, self)
    end
  else (Returned true, _save_library (set_book i book' self)).

(** The streak update returns: today is the last reading date, or the
    day after the last reading date exists. *)
Definition streak_update_returns (today : date) (u : UserData) : Prop :=
  match last_reading_date u with
  | Some last_date => today = last_date ∨ 1 ≤ last_date + 1 ≤ MAXORDINAL
  | None => True
  end.

(** Some record of the library carries the id. *)
Definition has_id (book_id : Z) (l : list Book.t) : Prop :=
  ∃ b, b ∈ l ∧ Book.id b = book_id.

(** The number of records that carry the id. *)
Definition count_id (book_id : Z) (l : list Book.t) : nat :=
  length (filter (λ book, Book.id book = book_id) l).

(** Two records that differ at most in ["progress"] and ["read"]. *)
Definition same_but_progress_read (b b' : Book.t) : Prop :=
  Book.id b' = Book.id b ∧ Book.title b' = Book.title b
  ∧ Book.author b' = Book.author b ∧ Book.year b' = Book.year b
  ∧ Book.genre b' = Book.genre b ∧ Book.rating b' = Book.rating b
  ∧ Book.notes b' = Book.notes b ∧ Book.added_date b' = Book.added_date b
  ∧ Book.cover_image b' = Book.cover_image b.

(** The string [get_achievements] builds for a table entry:
    [f"{criteria['icon']} {name}"]. *)
Definition badge (entry : str * Criteria) : str :=
  icon entry.2 ++ lit " " ++ entry.1.

(** ** Sample states *)

(** First run in November 2026: neither file exists. *)
Definition fresh : LibraryManager := init 11 FileNotFound UserFileUnreadable.

Definition add_sample (title author : string) (year : Z)
    (self : LibraryManager) : LibraryManager :=
  (add_book 2026 (lit "2026-11-03T09:30:00") (lit title) (lit author) year
     (lit "Sci-Fi") false None [] None self).2.

(** One unread book, "Dune", with id 1 and progress 0. *)
Definition dune_only : LibraryManager := add_sample "Dune" "Herbert" 1965 fresh.

(** Three books added, the first removed, a fourth added: the ids are
    2, 3 and 3. *)
Definition after_removal_and_add : LibraryManager :=
  add_sample "Foundation" "Asimov" 1951
    (remove_book 1
       (add_sample "Solaris" "Lem" 1961
          (add_sample "Neuromancer" "Gibson" 1984 dune_only))).2.

(** 2026-11-03 as an ordinal. *)
Definition nov_3_2026 : date := 739923.

(** A user state whose last completion was on 2026-11-02, in November,
    with a streak of 4 and 2 books read this month. *)
Definition read_yesterday : LibraryManager :=
  set_user_data (mkUserData 4 (Some (nov_3_2026 - 1)) 3 2 11) dune_only.

(** The same counters, but the last completion was on 2026-10-31. *)
Definition read_in_october : LibraryManager :=
  set_user_data (mkUserData 4 (Some (nov_3_2026 - 3)) 3 2 10) dune_only.

(** A user state whose last completion is dated 9999-12-31, the last
    day a date can hold, with the month still set to October. *)
Definition read_on_last_day : LibraryManager :=
  set_user_data (mkUserData 4 (Some MAXORDINAL) 3 2 10) dune_only.

(** ** Sequences of operations *)

Inductive Operation :=
  | AddBook (now_iso title author : str) (year : Z) (genre : str)
      (read : bool) (rating : option float) (notes : str)
      (cover_image : option str)
  | RemoveBook (book_id : Z)
  | UpdateProgress (today : date) (current_month : Z) (book_id progress : Z).

Definition apply_operation (year_now : Z) (self : LibraryManager)
    (op : Operation) : LibraryManager :=
  match op with
  | AddBook now_iso title author year genre read rating notes cover_image =>
      (add_book year_now now_iso title author year genre read rating notes
         cover_image self).2
  | RemoveBook book_id => (remove_book book_id self).2
  | UpdateProgress today current_month book_id progress =>
      (update_progress today current_month book_id progress self).2
  end.

Definition run (year_now : Z) (ops : list Operation) (self : LibraryManager)
  : LibraryManager :=
  foldl (apply_operation year_now) self ops.

(** The raw progress of the operation, if it has one, is at most 100. *)
Definition progress_at_most_100 (op : Operation) : Prop :=
  match op with
  | UpdateProgress _ _ _ progress => progress ≤ 100
  | _ => True
  end.

(** Calls made on the manager by the pages of [main]: the store
    operations and [set_monthly_goal]. *)
Inductive Call :=
  | StoreCall (op : Operation)
  | SetMonthlyGoal (goal : Z).

Definition apply_call (year_now : Z) (self : LibraryManager) (c : Call)
  : LibraryManager :=
  match c with
  | StoreCall op => apply_operation year_now self op
  | SetMonthlyGoal goal => set_monthly_goal goal self
  end.

Definition run_calls (year_now : Z) (calls : list Call)
    (self : LibraryManager) : LibraryManager :=
  foldl (apply_call year_now) self calls.

(** What the call returns or raises (the value returned is dropped). *)
Definition call_result (year_now : Z) (self : LibraryManager) (c : Call)
  : Result unit :=
  match c with
  | StoreCall (UpdateProgress today current_month book_id progress) =>
      match (update_progress today current_month book_id progress self).1 with
      | Returned _ => Returned tt
      | Raised e => Raised e
      end
  | _ => Returned tt
  end.

(** No call of the sequence raises. *)
Fixpoint all_return (year_now : Z) (calls : list Call)
    (self : LibraryManager) : Prop :=
  match calls with
  | [] => True
  | c :: calls' =>
      call_result year_now self c = Returned tt
      ∧ all_return year_now calls' (apply_call year_now self c)
  end.

Definition is_removal (op : Operation) : Prop :=
  match op with RemoveBook _ => True | _ => False end.

(** ** The two files *)

(** The object [json.dump] writes for a book: every key is present. *)
Definition json_of_book (b : Book.t) : StoredBook :=
  {| sb_id := Book.id b; sb_title := Book.title b;
     sb_author := Book.author b; sb_year := Book.year b;
     sb_genre := Book.genre b; sb_read := Book.read b;
     sb_rating := Book.rating b; sb_notes := Some (Book.notes b);
     sb_added_date := Book.added_date b;
     sb_progress := Some (Book.progress b);
     sb_cover_image := Some (Book.cover_image b) |}.

(** The content of [library.json] and [user_data.json] after a write
    that succeeds. *)
Definition write_file (files : LibraryFile * UserDataFile) (w : Write)
  : LibraryFile * UserDataFile :=
  match w with
  | WriteLibrary data => (JsonList (json_of_book <$> data), files.2)
  | WriteUserData data => (files.1, UserFileJson data)
  end.

Definition files_after (files : LibraryFile * UserDataFile)
    (ws : list Write) : LibraryFile * UserDataFile :=
  foldl write_file files ws.

(** What [_load_library] and [_load_user_data] would read after the
    writes [ws], the files being [files] before them. *)
Definition library_on_disk (files : LibraryFile * UserDataFile)
    (ws : list Write) : list Book.t :=
  _load_library (files_after files ws).1.

Definition user_data_on_disk (month_now : Z)
    (files : LibraryFile * UserDataFile) (ws : list Write) : UserData :=
  _load_user_data month_now (files_after files ws).2.

(** Memory and files agree. *)
Definition synced (month_now : Z) (files : LibraryFile * UserDataFile)
    (self : LibraryManager) : Prop :=
  library_on_disk files (writes self) = library self
  ∧ user_data_on_disk month_now files (writes self) = user_data self.

(** ** Recommendations *)

(** [self.recommendations], set in [__init__] and never assigned again;
    a dict in insertion order. *)
Definition recommendations : list (str * list str) :=
  [ (lit "Fiction", [lit "To Kill a Mockingbird"; lit "1984"]);
    (lit "Sci-Fi", [lit "Dune"; lit "Foundation"]);
    (lit "Fantasy", [lit "Harry Potter"; lit "Lord of the Rings"]) ].

Definition GENRE_OPTIONS : list str :=
  [ lit "Fiction"; lit "Non-Fiction"; lit "Sci-Fi"; lit "Fantasy";
    lit "Mystery"; lit "Biography"; lit "Romance"; lit "Thriller";
    lit "Other" ].

(** [d.get(key)] on a dict kept in insertion order. *)
Fixpoint dict_get {V : Type} (key : str) (d : list (str * V)) : option V :=
  match d with
  | [] => None
  | (k, v) :: d' => if bool_decide (k = key) then Some v else dict_get key d'
  end.

(** [key in d] *)
Definition dict_contains {V : Type} (key : str) (d : list (str * V)) : bool :=
  bool_decide (key ∈ d.*1).

(** What a call either returns or raises. *)
Inductive Outcome (A : Type) :=
  | Return (a : A)
  | RaiseIndexError.
Arguments Return {A} a.
Arguments RaiseIndexError {A}.

(** [random.choice(seq)]: an empty sequence raises [IndexError],
    otherwise the element at index [randbelow(len(seq))] is returned;
    [randbelow] stands for the generator's [_randbelow]. *)
Definition random_choice (randbelow : nat → nat) (seq : list str)
  : Outcome str :=
  match seq with
  | [] => RaiseIndexError
  | _ =>
      match seq !! randbelow (length seq) with
      | Some x => Return x
      | None => RaiseIndexError
      end
  end.

Definition get_recommendation (randbelow : nat → nat) (genre : str)
  : Outcome (option str) :=
  if dict_contains genre recommendations then
    match random_choice randbelow (default [] (dict_get genre recommendations)) with
    | Return x => Return (Some x)
    | RaiseIndexError => RaiseIndexError
    end
  else Return None.

(** ** Computations made by the pages of [main] *)

(** [min(values, default=d)] *)
Definition min_default (values : list Z) (d : Z) : Z :=
  match values with
  | [] => d
  | v :: values' => foldl Z.min v values'
  end.

(** The Achievements page:
    [min([c["books"] for c in ACHIEVEMENTS.values() if c["books"] > total_books], default=0)]. *)
Definition next_goal (self : LibraryManager) : Z :=
  let total_books := Z.of_nat (length (library self)) in
  min_default
    (books <$> filter (λ c, total_books < books c) (ACHIEVEMENTS.*2)) 0.

(** The key under which a book is offered in a select box:
    [f"{book['title']} ({book['author']})"]. *)
Definition option_key (book : Book.t) : str :=
  Book.title book ++ lit " (" ++ Book.author book ++ lit ")".

(** [{f"{book['title']} ({book['author']})": book["id"] for book in
    manager.library}]: a later book with the same key overwrites the
    entry of an earlier one. *)
Definition book_options (self : LibraryManager) : gmap str Z :=
  foldl (λ options book, <[option_key book := Book.id book]> options)
    ∅ (library self).

(** ** More predicates *)

Definition progress_in_range (l : list Book.t) : Prop :=
  Forall (λ b, 0 ≤ Book.progress b ≤ 100) l.

(** The ids are 1, 2, ..., [len(l)], in this order. *)
Definition ids_sequential (l : list Book.t) : Prop :=
  Book.id <$> l = Z.of_nat <$> seq 1 (length l).

(** No whitespace at either end. *)
Definition trimmed (s : str) : Prop :=
  (∀ c, head s = Some c → isspace c = false)
  ∧ (∀ c, last s = Some c → isspace c = false).

(** The counters of the user state: a streak of at least 1 once a
    reading date is recorded and of 0 before, and no negative goal or
    monthly count. *)
Definition counters_consistent (u : UserData) : Prop :=
  match last_reading_date u with
  | Some _ => 1 ≤ reading_streak u
  | None => reading_streak u = 0
  end
  ∧ 0 ≤ monthly_goal u
  ∧ 0 ≤ books_read_this_month u.

(** * Properties *)

(** ** Strings and validation *)

Lemma str_truthy_false (s : str) : str_truthy s = false ↔ s = [].
Proof. destruct s; naive_solver. Qed.

Lemma str_truthy_true (s : str) : str_truthy s = true ↔ s ≠ [].
Proof. destruct s; naive_solver. Qed.

Lemma VALID_YEARS_spec (year_now year : Z) :
  VALID_YEARS year_now year = true ↔ 1000 ≤ year ≤ year_now.
Proof.
  unfold VALID_YEARS.
  rewrite andb_true_iff, !bool_decide_eq_true. lia.
Qed.

Lemma VALID_YEARS_outside (year_now year : Z) :
  VALID_YEARS year_now year = false ↔ year < 1000 ∨ year_now < year.
Proof.
  rewrite <-not_true_iff_false, VALID_YEARS_spec. lia.
Qed.

(** ** Saving only touches the write log *)

Lemma library_save_library self : library (_save_library self) = library self.
Proof. reflexivity. Qed.

Lemma user_data_save_library self :
  user_data (_save_library self) = user_data self.
Proof. reflexivity. Qed.

Lemma library_update_reading_streak today self :
  library (_update_reading_streak today self).2 = library self.
Proof.
  unfold _update_reading_streak.
  destruct (last_reading_date (user_data self)) as [last_date|]; [|done].
  case_bool_decide; [done|].
  destruct (date_add_days last_date 1); [|done].
  case_bool_decide; done.
Qed.

(** The streak update returns exactly when [streak_update_returns]
    holds of the user state; otherwise it raises [OverflowError] and
    leaves the manager as it was. *)
Lemma update_reading_streak_result today self :
  (streak_update_returns today (user_data self)
   ∧ (_update_reading_streak today self).1 = Returned tt)
  ∨ (¬ streak_update_returns today (user_data self)
     ∧ _update_reading_streak today self = (Raised OverflowError, self)).
Proof.
  unfold streak_update_returns, _update_reading_streak, date_add_days.
  destruct (last_reading_date (user_data self)) as [last_date|];
    [|by left].
  case_bool_decide as Hsame; [left; auto|].
  case_bool_decide as Hrange.
  - left. split; [auto|]. by case_bool_decide.
  - right. split; [|done]. by intros [?|?].
Qed.

(** What a completion event amounts to: the monthly update applied to
    the state the streak update returns, or nothing at all when the
    streak update raises. *)
Lemma on_book_completed_cases today current_month self :
  (∃ self1,
     _update_reading_streak today self = (Returned tt, self1)
     ∧ on_book_completed today current_month self
       = (Returned tt, _update_monthly_goal current_month self1))
  ∨ (∃ e,
       _update_reading_streak today self = (Raised e, self)
       ∧ on_book_completed today current_month self = (Raised e, self)).
Proof.
  unfold on_book_completed, _update_reading_streak.
  destruct (last_reading_date (user_data self)) as [last_date|];
    [|left; by eexists].
  case_bool_decide; [left; by eexists|].
  destruct (date_add_days last_date 1); [|right; by eexists].
  case_bool_decide; left; by eexists.
Qed.

Lemma library_update_monthly_goal current_month self :
  library (_update_monthly_goal current_month self) = library self.
Proof. unfold _update_monthly_goal. case_bool_decide; done. Qed.

Lemma library_on_book_completed today current_month self :
  library (on_book_completed today current_month self).2 = library self.
Proof.
  destruct (on_book_completed_cases today current_month self)
    as [(self1 & Hstreak & ->)|(e & _ & ->)]; [|done].
  cbn [snd]. rewrite library_update_monthly_goal.
  by rewrite <-(library_update_reading_streak today self), Hstreak.
Qed.

(** ** add_book *)

(** C6: when the trimmed title is empty, or the trimmed author is empty,
    or the year lies outside [1000, year_now], [add_book] returns [False];
    the manager is left exactly as it was, so the collection has the same
    records and the same length, and nothing is written to storage. *)
Theorem add_book_rejects (year_now : Z) (now_iso title author : str)
    (year : Z) (genre : str) (read : bool) (rating : option float)
    (notes : str) (cover_image : option str) (self : LibraryManager) :
  strip title = [] ∨ strip author = [] ∨ year < 1000 ∨ year_now < year →
  ∃ self',
    add_book year_now now_iso title author year genre read rating notes
      cover_image self = (false, self')
    ∧ self' = self
    ∧ library self' = library self
    ∧ length (library self') = length (library self)
    ∧ writes self' = writes self.
Proof.
  intros Hbad. exists self. split_and!; try done.
  unfold add_book.
  assert (str_truthy (strip title) && str_truthy (strip author)
          && VALID_YEARS year_now year = false) as ->; [|done].
  rewrite !andb_false_iff, !str_truthy_false, VALID_YEARS_outside.
  tauto.
Qed.

Lemma add_book_rejects_witness :
  ∃ self',
    add_book 2026 (lit "2026-11-03T09:30:00") (lit "   ") (lit "Herbert")
      1965 (lit "Sci-Fi") false None [] None dune_only = (false, self')
    ∧ self' = dune_only
    ∧ library self' = library dune_only
    ∧ length (library self') = length (library dune_only)
    ∧ writes self' = writes dune_only.
Proof.
  apply (add_book_rejects 2026 (lit "2026-11-03T09:30:00") (lit "   ")
           (lit "Herbert") 1965 (lit "Sci-Fi") false None [] None dune_only).
  left. reflexivity.
Defined.

(** C7: for valid input, [add_book] returns [True]; the new record gets
    the id [len(library) + 1], which exceeds the current size, has progress
    0, is appended at the end of the collection and is therefore present
    in the [listAll] snapshot taken right after; the earlier records keep
    their positions. *)
Theorem add_book_appends (year_now : Z) (now_iso title author : str)
    (year : Z) (genre : str) (read : bool) (rating : option float)
    (notes : str) (cover_image : option str) (self : LibraryManager) :
  strip title ≠ [] → strip author ≠ [] → 1000 ≤ year ≤ year_now →
  ∃ self' book,
    add_book year_now now_iso title author year genre read rating notes
      cover_image self = (true, self')
    ∧ listAll self' = listAll self ++ [book]
    ∧ book ∈ listAll self'
    ∧ listAll self' !! length (listAll self) = Some book
    ∧ Book.id book = Z.of_nat (length (listAll self)) + 1
    ∧ Z.of_nat (length (listAll self)) < Book.id book
    ∧ Book.progress book = 0
    ∧ Book.title book = strip title ∧ Book.author book = strip author
    ∧ Book.year book = year ∧ Book.genre book = genre
    ∧ Book.read book = read.
Proof.
  intros Ht Ha Hy.
  unfold add_book.
  apply str_truthy_true in Ht, Ha. apply VALID_YEARS_spec in Hy.
  rewrite Ht, Ha, Hy. simpl.
  eexists _, _. split; [reflexivity|].
  unfold listAll. simpl.
  split_and!; try done.
  - set_solver.
  - by rewrite lookup_app_r, Nat.sub_diag.
  - simpl. lia.
Qed.

Lemma add_book_appends_witness :
  ∃ self' book,
    add_book 2026 (lit "2026-11-03T09:30:00") (lit " Dune ") (lit "Herbert")
      1965 (lit "Sci-Fi") false None [] None fresh = (true, self')
    ∧ listAll self' = listAll fresh ++ [book]
    ∧ book ∈ listAll self'
    ∧ listAll self' !! length (listAll fresh) = Some book
    ∧ Book.id book = Z.of_nat (length (listAll fresh)) + 1
    ∧ Z.of_nat (length (listAll fresh)) < Book.id book
    ∧ Book.progress book = 0
    ∧ Book.title book = strip (lit " Dune ")
    ∧ Book.author book = strip (lit "Herbert")
    ∧ Book.year book = 1965 ∧ Book.genre book = lit "Sci-Fi"
    ∧ Book.read book = false.
Proof.
  apply (add_book_appends 2026 (lit "2026-11-03T09:30:00") (lit " Dune ")
           (lit "Herbert") 1965 (lit "Sci-Fi") false None [] None fresh).
  - vm_compute. discriminate.
  - vm_compute. discriminate.
  - lia.
Defined.

(** ** update_progress: what the loop computes *)

Lemma set_book_set_book i b1 b2 self :
  set_book i b2 (set_book i b1 self) = set_book i b2 self.
Proof.
  unfold set_book, set_library. simpl.
  by rewrite list_insert_insert_eq.
Qed.

Lemma update_progress_loop_find today current_month book_id progress rest :
  ∀ i self,
    update_progress_loop today current_month book_id progress i rest self =
      match list_find (λ book, Book.id book = book_id) rest with
      | Some (j, book) =>
          progress_updated today current_month progress (i + j) book self
      | None => (Returned false, self)
      end.
Proof.
  induction rest as [|book rest IH]; intros i self; [done|].
  cbn [update_progress_loop list_find].
  case_bool_decide as Hid.
  - rewrite decide_True by done.
    cbn [fmap option_fmap option_map prod_map fst snd].
    rewrite Nat.add_0_r. unfold progress_updated, clamp.
    cbn [Book.read Book.set_progress].
    destruct (bool_decide (progress = 100) && negb (Book.read book)); [|done].
    by rewrite set_book_set_book.
  - rewrite decide_False by done.
    rewrite IH. destruct (list_find _ rest) as [[j b]|]; [|done].
    simpl. by rewrite Nat.add_succ_r.
Qed.

Lemma update_progress_found today current_month book_id progress self i book :
  list_find (λ book, Book.id book = book_id) (library self) = Some (i, book) →
  update_progress today current_month book_id progress self =
    progress_updated today current_month progress i book self.
Proof.
  intros Hfind. unfold update_progress.
  by rewrite update_progress_loop_find, Hfind.
Qed.

Lemma update_progress_missing today current_month book_id progress self :
  list_find (λ book, Book.id book = book_id) (library self) = None →
  update_progress today current_month book_id progress self
  = (Returned false, self).
Proof.
  intros Hfind. unfold update_progress.
  by rewrite update_progress_loop_find, Hfind.
Qed.

(** On a record that is found the call returns [True] or raises; it
    never returns [False]. *)
Lemma progress_updated_not_false today current_month progress i book self :
  (progress_updated today current_month progress i book self).1
  ≠ Returned false.
Proof.
  unfold progress_updated.
  destruct (bool_decide (progress = 100) && negb (Book.read book)); [|done].
  by destruct (on_book_completed _ _ _) as [[[]|e] s].
Qed.

Lemma update_progress_true today current_month book_id progress self self' :
  update_progress today current_month book_id progress self
  = (Returned true, self') →
  ∃ i book,
    list_find (λ book, Book.id book = book_id) (library self) = Some (i, book)
    ∧ progress_updated today current_month progress i book self
      = (Returned true, self').
Proof.
  unfold update_progress. rewrite update_progress_loop_find.
  destruct (list_find _ _) as [[i book]|]; [|done].
  intros Hrun. eauto.
Qed.

(** The collection in the state [progress_updated] leaves, whether it
    returns or raises: the record at [i] is replaced, nothing else
    moves. *)
Lemma library_progress_updated today current_month progress i book self :
  library (progress_updated today current_month progress i book self).2 =
    <[i := (if bool_decide (progress = 100) && negb (Book.read book)
            then Book.set_read true (Book.set_progress (clamp progress) book)
            else Book.set_progress (clamp progress) book)]> (library self).
Proof.
  unfold progress_updated.
  destruct (bool_decide (progress = 100) && negb (Book.read book)); [|done].
  pose proof (library_on_book_completed today current_month
    (set_book i (Book.set_read true (Book.set_progress (clamp progress) book))
       self)) as Hlib.
  by destruct (on_book_completed _ _ _) as [[[]|e] s].
Qed.

(** When the streak update returns, so does the whole call, with the
    library saved last. *)
Lemma progress_updated_completes today current_month i book self self1 :
  Book.read book = false →
  on_book_completed today current_month
    (set_book i (Book.set_read true (Book.set_progress 100 book)) self)
  = (Returned tt, self1) →
  progress_updated today current_month 100 i book self
  = (Returned true, _save_library self1).
Proof.
  intros Hread Hdone. unfold progress_updated, clamp.
  rewrite Hread, bool_decide_eq_true_2 by done. cbn [andb negb].
  change (Z.min 100 (Z.max 0 100)) with 100. by rewrite Hdone.
Qed.

Lemma clamp_range p : 0 ≤ clamp p ≤ 100.
Proof. unfold clamp. lia. Qed.

Lemma has_id_find book_id (l : list Book.t) :
  has_id book_id l →
  ∃ i book, list_find (λ book, Book.id book = book_id) l = Some (i, book).
Proof.
  intros (b & Hb & Hid).
  destruct (list_find_elem_of (λ book, Book.id book = book_id) l b Hb Hid)
    as [[i book] Hfind].
  eauto.
Qed.

Lemma find_insert_same_id book_id (l : list Book.t) i book book' :
  list_find (λ book, Book.id book = book_id) l = Some (i, book) →
  Book.id book' = book_id →
  list_find (λ book, Book.id book = book_id) (<[i := book']> l) = Some (i, book').
Proof.
  intros (Hi & _ & Hfirst)%list_find_Some Hid.
  apply list_find_Some. split_and!; [|done|].
  - apply list_lookup_insert_eq. by eapply lookup_lt_Some.
  - intros j y Hj Hlt. rewrite list_lookup_insert_ne in Hj by lia. eauto.
Qed.

(** When some record carries the id, [update_progress] does not return
    [False], and whether it returns or raises, the first record carrying
    the id (at the same position as before) has stored progress
    [min(100, max(0, p))], a value between 0 and 100. *)
Lemma update_progress_clamps (today : date) (current_month : Z)
    (book_id p : Z) (self : LibraryManager) :
  has_id book_id (library self) →
  ∃ i book book',
    (update_progress today current_month book_id p self).1 ≠ Returned false
    ∧ list_find (λ book, Book.id book = book_id) (library self) = Some (i, book)
    ∧ list_find (λ book, Book.id book = book_id)
        (library (update_progress today current_month book_id p self).2)
      = Some (i, book')
    ∧ Book.progress book' = Z.min 100 (Z.max 0 p)
    ∧ 0 ≤ Book.progress book' ≤ 100.
Proof.
  intros (i & book & Hfind)%has_id_find.
  pose proof Hfind as (_ & Hid & _)%list_find_Some.
  rewrite (update_progress_found _ _ _ _ _ i book) by done.
  eexists i, book, _. split; [apply progress_updated_not_false|].
  split; [done|].
  rewrite library_progress_updated. split.
  - apply (find_insert_same_id _ _ _ book); [done|].
    by destruct (bool_decide (p = 100) && negb (Book.read book)).
  - pose proof (clamp_range p).
    destruct (bool_decide (p = 100) && negb (Book.read book)); simpl;
      unfold clamp in *; lia.
Qed.

(** When the ids of the collection are pairwise distinct, every record
    that carries the id has the clamped progress after the call. *)
Lemma update_progress_clamps_distinct (today : date) (current_month : Z)
    (book_id p : Z) (self : LibraryManager) (book' : Book.t) :
  NoDup (Book.id <$> library self) →
  book' ∈ library (update_progress today current_month book_id p self).2 →
  Book.id book' = book_id →
  Book.progress book' = Z.min 100 (Z.max 0 p).
Proof.
  intros Hnd Hin Hid.
  destruct (list_find (λ book, Book.id book = book_id) (library self))
    as [[i book]|] eqn:Hfind.
  - rewrite (update_progress_found _ _ _ _ _ i book) in Hin by done.
    rewrite library_progress_updated in Hin.
    apply list_find_Some in Hfind as (Hi & Hbook & _).
    apply list_elem_of_lookup in Hin as [j Hj].
    destruct (decide (j = i)) as [->|Hne].
    + rewrite list_lookup_insert_eq in Hj by (by eapply lookup_lt_Some).
      injection Hj as <-.
      by destruct (bool_decide (p = 100) && negb (Book.read book)).
    + rewrite list_lookup_insert_ne in Hj by done.
      exfalso. apply Hne.
      apply (NoDup_lookup (Book.id <$> library self) j i book_id); [done|..].
      * by rewrite list_lookup_fmap, Hj, <-Hid.
      * by rewrite list_lookup_fmap, Hi, <-Hbook.
  - rewrite update_progress_missing in Hin by done.
    apply list_find_None in Hfind.
    rewrite Forall_forall in Hfind. by destruct (Hfind book' Hin).
Qed.

(** C3: [update_progress(3, 50)] on the collection with ids 2, 3, 3 (three
    books added, the first removed, a fourth added).  The call returns
    [True], but only the first record with id 3 is updated: the last
    record, which carries id 3 as well, keeps progress 0 instead of
    [min(100, max(0, 50)) = 50]. *)
Theorem update_progress_shared_id_untouched :
  Book.id <$> library after_removal_and_add = [2; 3; 3]
  ∧ Z.min 100 (Z.max 0 50) = 50
  ∧ let '(ok, self') :=
      update_progress nov_3_2026 11 3 50 after_removal_and_add in
    ok = Returned true
    ∧ Book.id <$> library self' = [2; 3; 3]
    ∧ Book.progress <$> library self' = [0; 50; 0].
Proof. vm_compute. by repeat split. Qed.

(** C10: a call of [update_progress] that returns [True] replaces one
    record, the first that carries the id, by a record that differs from
    it at most in progress and read (id, title, author, year, genre,
    rating, notes, added_date and cover_image are the same); every other
    position of the collection holds the record it held before, so length
    and order are preserved. *)
Theorem update_progress_frame (today : date) (current_month : Z)
    (book_id p : Z) (self self' : LibraryManager) :
  update_progress today current_month book_id p self = (Returned true, self') →
  ∃ i book book',
    library self !! i = Some book
    ∧ Book.id book = book_id
    ∧ library self' = <[i := book']> (library self)
    ∧ library self' !! i = Some book'
    ∧ same_but_progress_read book book'
    ∧ length (library self') = length (library self)
    ∧ ∀ j, j ≠ i → library self' !! j = library self !! j.
Proof.
  intros (i & book & Hfind & Hrun)%update_progress_true.
  apply list_find_Some in Hfind as (Hi & Hid & _).
  pose proof (library_progress_updated today current_month p i book self)
    as Hlib.
  rewrite Hrun in Hlib. cbn [snd] in Hlib. rewrite Hlib.
  eexists i, book, _. split_and!; [done|done|reflexivity|..].
  - apply list_lookup_insert_eq. by eapply lookup_lt_Some.
  - by destruct (bool_decide (p = 100) && negb (Book.read book)).
  - by rewrite length_insert.
  - intros j Hj. by rewrite list_lookup_insert_ne.
Qed.

Lemma update_progress_frame_witness :
  ∃ i book book',
    library after_removal_and_add !! i = Some book
    ∧ Book.id book = 3
    ∧ library (update_progress nov_3_2026 11 3 100 after_removal_and_add).2 =
        <[i := book']> (library after_removal_and_add)
    ∧ library (update_progress nov_3_2026 11 3 100 after_removal_and_add).2 !! i
        = Some book'
    ∧ same_but_progress_read book book'
    ∧ length (library (update_progress nov_3_2026 11 3 100
                         after_removal_and_add).2)
        = length (library after_removal_and_add)
    ∧ ∀ j, j ≠ i →
        library (update_progress nov_3_2026 11 3 100 after_removal_and_add).2 !! j
        = library after_removal_and_add !! j.
Proof.
  apply (update_progress_frame nov_3_2026 11 3 100 after_removal_and_add).
  reflexivity.
Defined.

(** ** Completion *)

(** At exactly 100 on an unread record: the record is marked read and one
    completion event runs; when that event returns, the library is saved
    and the call returns [True]. *)
Lemma update_progress_completes today current_month book_id self i book
    self1 :
  list_find (λ book, Book.id book = book_id) (library self) = Some (i, book) →
  Book.read book = false →
  on_book_completed today current_month
    (set_book i (Book.set_read true (Book.set_progress 100 book)) self)
  = (Returned tt, self1) →
  update_progress today current_month book_id 100 self =
    (Returned true, _save_library self1).
Proof.
  intros Hfind Hread Hdone.
  rewrite (update_progress_found _ _ _ _ _ i book) by done.
  by apply progress_updated_completes.
Qed.

(** When that event raises, the call raises with it: the record is
    marked read in memory and nothing is saved. *)
Lemma update_progress_completion_raises today current_month book_id self i
    book e :
  list_find (λ book, Book.id book = book_id) (library self) = Some (i, book) →
  Book.read book = false →
  (_update_reading_streak today self).1 = Raised e →
  update_progress today current_month book_id 100 self =
    (Raised e,
     set_book i (Book.set_read true (Book.set_progress 100 book)) self).
Proof.
  intros Hfind Hread Hraise.
  rewrite (update_progress_found _ _ _ _ _ i book) by done.
  unfold progress_updated, clamp.
  rewrite Hread, bool_decide_eq_true_2 by done. cbn [andb negb].
  change (Z.min 100 (Z.max 0 100)) with 100.
  set (self0 := set_book i _ self).
  destruct (update_reading_streak_result today self) as [[_ Hret]|[Hno _]];
    [congruence|].
  destruct (update_reading_streak_result today self0) as [[Hyes _]|[_ Hrun]];
    [done|].
  unfold on_book_completed. rewrite Hrun. by destruct e.
Qed.

(** On a record already marked read no completion event runs: the user
    state is untouched and the only write is the library. *)
Lemma update_progress_already_read today current_month book_id p self i book :
  list_find (λ book, Book.id book = book_id) (library self) = Some (i, book) →
  Book.read book = true →
  update_progress today current_month book_id p self =
    (Returned true,
     _save_library (set_book i (Book.set_progress (clamp p) book) self)).
Proof.
  intros Hfind Hread.
  rewrite (update_progress_found _ _ _ _ _ i book) by done.
  unfold progress_updated. by rewrite Hread, andb_false_r.
Qed.

(** Hence a second call at 100 does not complete the book again. *)
Lemma update_progress_twice_at_100 today current_month today' current_month'
    book_id self self1 self2 :
  update_progress today current_month book_id 100 self
  = (Returned true, self1) →
  update_progress today' current_month' book_id 100 self1
  = (Returned true, self2) →
  user_data self2 = user_data self1
  ∧ writes self2 = writes self1 ++ [WriteLibrary (library self2)].
Proof.
  intros (i & book & Hfind & Hrun)%update_progress_true.
  assert (∃ book1,
    list_find (λ book, Book.id book = book_id) (library self1) = Some (i, book1)
    ∧ Book.read book1 = true) as (book1 & Hfind1 & Hread1).
  { pose proof Hfind as (_ & Hid & _)%list_find_Some.
    pose proof (library_progress_updated today current_month 100 i book self)
      as Hlib.
    rewrite Hrun in Hlib. cbn [snd] in Hlib. rewrite Hlib.
    eexists. split.
    - apply (find_insert_same_id _ _ _ book); [done|].
      by destruct (bool_decide (100 = 100) && negb (Book.read book)).
    - rewrite bool_decide_eq_true_2 by done. by destruct (Book.read book) eqn:E. }
  rewrite (update_progress_already_read _ _ _ _ _ i book1) by done.
  by intros [= <-].
Qed.

(** For raw inputs up to 100 the clamped value is 100 only at input 100,
    so the test the code makes on the raw input is the test on the
    clamped value. *)
Lemma update_progress_completes_iff_clamped today current_month book_id p
    self i book self1 :
  p ≤ 100 →
  list_find (λ book, Book.id book = book_id) (library self) = Some (i, book) →
  Book.read book = false →
  clamp p = 100 →
  on_book_completed today current_month
    (set_book i (Book.set_read true (Book.set_progress 100 book)) self)
  = (Returned tt, self1) →
  update_progress today current_month book_id p self =
    (Returned true, _save_library self1).
Proof.
  intros Hp Hfind Hread Hclamp Hdone.
  assert (p = 100) as -> by (unfold clamp in Hclamp; lia).
  by apply (update_progress_completes _ _ _ _ i book).
Qed.

(** C2: [update_progress(1, 150)] on the unread book "Dune".  The clamped
    value is 100 and the stored progress becomes 100, but the code tests
    the raw input against 100: the record stays unread, the user state is
    the one before the call (no streak or monthly update) and the only
    write is the library file. *)
Theorem update_progress_150_no_completion :
  let '(ok, self') := update_progress nov_3_2026 11 1 150 dune_only in
  Z.min 100 (Z.max 0 150) = 100
  ∧ Book.read <$> library dune_only = [false]
  ∧ ok = Returned true
  ∧ Book.progress <$> library self' = [100]
  ∧ Book.read <$> library self' = [false]
  ∧ user_data self' = user_data dune_only
  ∧ writes self' = writes dune_only ++ [WriteLibrary (library self')].
Proof. vm_compute. by repeat split. Qed.

(** ** The invariant "progress 100 implies read" *)

Lemma load_library_invariant (file : LibraryFile) :
  match file with
  | JsonList data => stored_invariant data
  | _ => True
  end →
  library_invariant (_load_library file).
Proof.
  unfold library_invariant.
  destruct file as [| | |data]; simpl; try by constructor.
  intros Hdata. apply Forall_fmap.
  eapply Forall_impl; [exact Hdata|].
  intros b Hb. unfold complete_implies_read, setdefaults. simpl in *.
  destruct (sb_progress b) as [q|]; simpl; [|done].
  intros ->. by apply Hb.
Qed.

Lemma add_book_invariant year_now now_iso title author year genre read rating
    notes cover_image self :
  library_invariant (library self) →
  library_invariant
    (library (add_book year_now now_iso title author year genre read rating
                notes cover_image self).2).
Proof.
  intros Hinv. unfold add_book.
  destruct (negb _); [done|]. simpl.
  apply Forall_app. split; [done|].
  by apply Forall_singleton.
Qed.

Lemma remove_book_invariant book_id self :
  library_invariant (library self) →
  library_invariant (library (remove_book book_id self).2).
Proof.
  intros Hinv. unfold remove_book, library_invariant in *.
  rewrite Forall_forall in Hinv.
  case_bool_decide; simpl; apply Forall_forall;
    intros b [_ Hb]%list_elem_of_filter; by apply Hinv.
Qed.

(** [update_progress] keeps the invariant for every raw input up to 100. *)
Lemma update_progress_invariant today current_month book_id p self :
  p ≤ 100 →
  library_invariant (library self) →
  library_invariant
    (library (update_progress today current_month book_id p self).2).
Proof.
  intros Hp Hinv. unfold update_progress.
  rewrite update_progress_loop_find.
  destruct (list_find _ _) as [[i book]|]; [|done]. cbn [snd].
  rewrite library_progress_updated.
  apply Forall_insert; [done|].
  unfold complete_implies_read, clamp.
  destruct (bool_decide (p = 100) && negb (Book.read book)) eqn:E; simpl;
    [done|].
  intros Hc. assert (p = 100) as -> by lia.
  rewrite bool_decide_eq_true_2 in E by done.
  by destruct (Book.read book).
Qed.

(** C1: the invariant holds for the library with the single unread book
    "Dune" at progress 0, and fails after [update_progress(1, 150)]: the
    record is stored with progress 100 and read still false. *)
Theorem update_progress_150_breaks_invariant :
  library_invariant (library dune_only)
  ∧ (update_progress nov_3_2026 11 1 150 dune_only).1 = Returned true
  ∧ ¬ library_invariant
        (library (update_progress nov_3_2026 11 1 150 dune_only).2).
Proof.
  split_and!.
  - apply Forall_singleton. by intros [=].
  - reflexivity.
  - intros Hinv.
    apply (Forall_lookup_1 _ _ 0%nat) with (x :=
      Book.set_progress 100 (default (Book.mk 0 [] [] 0 [] false None [] [] 0 None)
                               (library dune_only !! 0%nat))) in Hinv;
      [|reflexivity].
    by specialize (Hinv eq_refl).
Qed.

(** ** Progress Tracker *)

Lemma streak_fields_update_monthly_goal current_month self :
  reading_streak (user_data (_update_monthly_goal current_month self))
    = reading_streak (user_data self)
  ∧ last_reading_date (user_data (_update_monthly_goal current_month self))
    = last_reading_date (user_data self)
  ∧ monthly_goal (user_data (_update_monthly_goal current_month self))
    = monthly_goal (user_data self).
Proof. unfold _update_monthly_goal. case_bool_decide; done. Qed.

Lemma monthly_fields_update_reading_streak today self :
  month (user_data (_update_reading_streak today self).2)
    = month (user_data self)
  ∧ books_read_this_month (user_data (_update_reading_streak today self).2)
    = books_read_this_month (user_data self)
  ∧ monthly_goal (user_data (_update_reading_streak today self).2)
    = monthly_goal (user_data self).
Proof.
  unfold _update_reading_streak.
  destruct (last_reading_date (user_data self)) as [last_date|]; [|done].
  case_bool_decide; [done|].
  destruct (date_add_days last_date 1); [|done].
  case_bool_decide; done.
Qed.

(** The streak and the date in the state a returning streak update
    leaves. *)
Lemma update_reading_streak_spec today self self1 :
  _update_reading_streak today self = (Returned tt, self1) →
  let before := user_data self in
  let after := user_data self1 in
  match last_reading_date before with
  | None => reading_streak after = 1 ∧ last_reading_date after = Some today
  | Some last_date =>
      (today = last_date →
         reading_streak after = reading_streak before
         ∧ last_reading_date after = Some last_date)
      ∧ (today = last_date + 1 →
         reading_streak after = reading_streak before + 1
         ∧ last_reading_date after = Some today)
      ∧ (last_date + 1 < today ∨ today < last_date →
         reading_streak after = 1 ∧ last_reading_date after = Some today)
  end.
Proof.
  unfold _update_reading_streak, date_add_days. simpl.
  destruct (last_reading_date (user_data self)) as [last_date|] eqn:Hlast.
  - case_bool_decide as Hsame.
    { intros [= <-]. split_and!; intros; try done; lia. }
    case_bool_decide as Hrange; [|done].
    case_bool_decide as Hnext; intros [= <-]; simpl;
      split_and!; intros; try done; lia.
  - by intros [= <-].
Qed.

Lemma on_book_completed_returns today current_month self :
  streak_update_returns today (user_data self) →
  ∃ self1,
    _update_reading_streak today self = (Returned tt, self1)
    ∧ on_book_completed today current_month self
      = (Returned tt, _update_monthly_goal current_month self1).
Proof.
  intros Hret.
  destruct (on_book_completed_cases today current_month self)
    as [(self1 & Hstreak & Hdone)|(e & Hstreak & _)]; [eauto|].
  destruct (update_reading_streak_result today self) as [[_ Hr]|[Hno _]];
    [|done].
  by rewrite Hstreak in Hr.
Qed.

Lemma on_book_completed_raises today current_month self :
  ¬ streak_update_returns today (user_data self) →
  on_book_completed today current_month self = (Raised OverflowError, self).
Proof.
  intros Hno.
  destruct (update_reading_streak_result today self) as [[Hyes _]|[_ Hrun]];
    [done|].
  unfold on_book_completed. by rewrite Hrun.
Qed.

(** The streak after a completion event whose streak update returns, that
    is for every user state but those whose last reading date is
    9999-12-31 on another day than today.  With no last reading date the
    streak becomes 1; on the same day as the last reading date the streak
    and the date stay as they are; exactly one day later the streak grows
    by 1; for every other gap the streak becomes 1; and outside the
    same-day case the last reading date becomes today. *)
Lemma completion_updates_streak (today : date) (current_month : Z)
    (self : LibraryManager) :
  streak_update_returns today (user_data self) →
  (on_book_completed today current_month self).1 = Returned tt
  ∧ let before := user_data self in
    let after := user_data (on_book_completed today current_month self).2 in
    match last_reading_date before with
    | None => reading_streak after = 1 ∧ last_reading_date after = Some today
    | Some last_date =>
        (today = last_date →
           reading_streak after = reading_streak before
           ∧ last_reading_date after = Some last_date)
        ∧ (today = last_date + 1 →
           reading_streak after = reading_streak before + 1
           ∧ last_reading_date after = Some today)
        ∧ (last_date + 1 < today ∨ today < last_date →
           reading_streak after = 1 ∧ last_reading_date after = Some today)
    end.
Proof.
  intros (self1 & Hstreak & ->)%(on_book_completed_returns _ current_month).
  split; [done|]. cbn [snd].
  pose proof (update_reading_streak_spec today self self1 Hstreak) as Hspec.
  destruct (streak_fields_update_monthly_goal current_month self1)
    as (Hs & Hl & _).
  cbv zeta in *. rewrite Hs, Hl. exact Hspec.
Qed.

(** C4: a completion event on 2026-11-03 for a user whose last reading
    date is 9999-12-31, a date later than today.  The sum
    [last_date + timedelta(days=1)] raises [OverflowError]: the streak is
    not reset to 1 and the last reading date does not become today.
    Reached through [update_progress(1, 100)], the call raises after the
    book was marked read in memory and before anything is written. *)
Theorem completion_on_last_day_raises :
  last_reading_date (user_data read_on_last_day) = Some MAXORDINAL
  ∧ nov_3_2026 < MAXORDINAL
  ∧ reading_streak (user_data read_on_last_day) = 4
  ∧ on_book_completed nov_3_2026 11 read_on_last_day
    = (Raised OverflowError, read_on_last_day)
  ∧ let '(result, self') :=
      update_progress nov_3_2026 11 1 100 read_on_last_day in
    result = Raised OverflowError
    ∧ Book.read <$> library self' = [true]
    ∧ reading_streak (user_data self') = 4
    ∧ last_reading_date (user_data self') = Some MAXORDINAL
    ∧ writes self' = writes read_on_last_day.
Proof. vm_compute. by repeat split. Qed.

Lemma update_monthly_goal_spec current_month self :
  month (user_data (_update_monthly_goal current_month self)) = current_month
  ∧ books_read_this_month (user_data (_update_monthly_goal current_month self))
    = (if bool_decide (month (user_data self) ≠ current_month) then 0
       else books_read_this_month (user_data self)) + 1.
Proof.
  unfold _update_monthly_goal. case_bool_decide as Hmonth; simpl; [done|].
  split; [|done]. by destruct (decide (month (user_data self) = current_month)).
Qed.

(** The monthly counter after a completion event whose streak update
    returns.  If the stored month differs from the current month the
    counter restarts and ends at 1 (0, then the increment) with the month
    set to the current one; otherwise it grows by 1.  The result is the
    one [_update_monthly_goal] gives on the state before the streak
    update, and the goal itself is untouched. *)
Lemma completion_updates_monthly_counter (today : date) (current_month : Z)
    (self : LibraryManager) :
  streak_update_returns today (user_data self) →
  let before := user_data self in
  let after := user_data (on_book_completed today current_month self).2 in
  month after = current_month
  ∧ (month before ≠ current_month →
       books_read_this_month after = 0 + 1 ∧ books_read_this_month after ≠ 0)
  ∧ (month before = current_month →
       books_read_this_month after = books_read_this_month before + 1)
  ∧ books_read_this_month after =
      books_read_this_month (user_data (_update_monthly_goal current_month self))
  ∧ month after = month (user_data (_update_monthly_goal current_month self))
  ∧ monthly_goal after = monthly_goal before.
Proof.
  intros (self1 & Hstreak & ->)%(on_book_completed_returns _ current_month)
    before after.
  destruct (monthly_fields_update_reading_streak today self) as (Hm & Hb & Hg).
  rewrite Hstreak in Hm, Hb, Hg. cbn [snd] in Hm, Hb, Hg.
  destruct (update_monthly_goal_spec current_month self1) as (Hm1 & Hb1).
  destruct (update_monthly_goal_spec current_month self) as (Hm2 & Hb2).
  destruct (streak_fields_update_monthly_goal current_month self1)
    as (_ & _ & Hg1).
  subst before after. cbn [snd].
  rewrite Hm1, Hb1, Hm2, Hb2, Hg1, Hm, Hb, Hg.
  case_bool_decide as Hmonth; split_and!; intros; try done; lia.
Qed.

(** C5: the same completion event, with the stored month (October)
    different from the current one (November).  Because the streak
    update raises, [_update_monthly_goal] is never called: the counter
    stays at 2 and the month at 10, where the monthly update alone gives
    1 and 11.  The book is marked read all the same. *)
Theorem completion_on_last_day_skips_monthly_update :
  month (user_data read_on_last_day) = 10
  ∧ books_read_this_month (user_data read_on_last_day) = 2
  ∧ books_read_this_month
      (user_data (_update_monthly_goal 11 read_on_last_day)) = 1
  ∧ month (user_data (_update_monthly_goal 11 read_on_last_day)) = 11
  ∧ let '(result, self') :=
      update_progress nov_3_2026 11 1 100 read_on_last_day in
    result = Raised OverflowError
    ∧ Book.read <$> library self' = [true]
    ∧ books_read_this_month (user_data self') = 2
    ∧ month (user_data self') = 10.
Proof. vm_compute. by repeat split. Qed.

(** ** remove_book *)

Lemma filter_other_ids_length book_id (l : list Book.t) :
  (length (filter (λ book, Book.id book ≠ book_id) l) + count_id book_id l
   = length l)%nat.
Proof.
  unfold count_id. induction l as [|b l IH]; [done|].
  rewrite !filter_cons.
  repeat case_decide; simpl; try lia; done.
Qed.

Lemma filter_other_ids_absent book_id (l : list Book.t) :
  ¬ has_id book_id l → filter (λ book, Book.id book ≠ book_id) l = l.
Proof.
  unfold has_id. induction l as [|b l IH]; intros Hno; [done|].
  rewrite filter_cons_True by (intros Heq; apply Hno; exists b; set_solver).
  f_equal. apply IH. intros (b' & Hb' & Hid). apply Hno. exists b'. set_solver.
Qed.

Lemma count_id_present book_id (l : list Book.t) :
  has_id book_id l → (1 ≤ count_id book_id l)%nat.
Proof.
  intros (b & Hb & Hid). unfold count_id.
  assert (b ∈ filter (λ book, Book.id book = book_id) l) as Hin
    by (by apply list_elem_of_filter).
  destruct (filter _ l); [by apply elem_of_nil in Hin | simpl; lia].
Qed.

Lemma count_id_absent book_id (l : list Book.t) :
  book_id ∉ Book.id <$> l → count_id book_id l = 0%nat.
Proof.
  unfold count_id. induction l as [|b l IH]; [done|].
  rewrite fmap_cons, not_elem_of_cons. intros [Hne Hl].
  rewrite filter_cons, decide_False by done. by apply IH.
Qed.

Lemma count_id_unique book_id (l : list Book.t) :
  NoDup (Book.id <$> l) → has_id book_id l → count_id book_id l = 1%nat.
Proof.
  induction l as [|b l IH]; intros Hnd (b' & Hb' & Hid).
  - by apply elem_of_nil in Hb'.
  - rewrite fmap_cons in Hnd. apply NoDup_cons in Hnd as [Hfresh Hnd].
    unfold count_id in *. rewrite filter_cons.
    destruct (decide (Book.id b = book_id)) as [Heq|Hne].
    + simpl. f_equal. apply count_id_absent. by rewrite <-Heq.
    + apply IH; [done|]. exists b'. split; [|done].
      apply elem_of_cons in Hb' as [->|]; done.
Qed.

Lemma filter_other_ids_gone book_id (l : list Book.t) :
  ¬ has_id book_id (filter (λ book, Book.id book ≠ book_id) l).
Proof. intros (b & [Hne _]%list_elem_of_filter & Hid). done. Qed.

(** What [remove_book] does in every state: for an id carried by no
    record it returns [False], the collection is the one before and
    nothing is written; for an id carried by some record it returns
    [True], the length decreases by the number of records carrying the id
    (at least 1, and exactly 1 when the ids of the collection are pairwise
    distinct), no record of the [listAll] snapshot carries the id
    afterwards, and the library is saved. *)
Lemma remove_book_spec (book_id : Z) (self : LibraryManager) :
  let '(ok, self') := remove_book book_id self in
  (¬ has_id book_id (library self) →
     ok = false
     ∧ library self' = library self
     ∧ length (library self') = length (library self)
     ∧ writes self' = writes self)
  ∧ (has_id book_id (library self) →
     ok = true
     ∧ (length (library self') + count_id book_id (library self)
        = length (library self))%nat
     ∧ (1 ≤ count_id book_id (library self))%nat
     ∧ (NoDup (Book.id <$> library self) →
        (length (library self') + 1 = length (library self))%nat)
     ∧ ¬ has_id book_id (listAll self')
     ∧ writes self' = writes self ++ [WriteLibrary (library self')]).
Proof.
  unfold remove_book.
  pose proof (filter_other_ids_length book_id (library self)) as Hlen.
  cbn [library set_library] in *.
  case_bool_decide as Hlt; cbn [library _save_library set_library writes listAll].
  - split.
    + intros Hno. rewrite filter_other_ids_absent in Hlt by done. lia.
    + intros Hhas. split_and!; try done.
      * by apply count_id_present.
      * intros Hnd. by rewrite <-(count_id_unique book_id (library self)).
      * apply filter_other_ids_gone.
  - split.
    + intros Hno. by rewrite filter_other_ids_absent.
    + intros Hhas%count_id_present. lia.
Qed.

Lemma remove_book_spec_witness :
  (remove_book 1 dune_only).1 = true
  ∧ (length (library (remove_book 1 dune_only).2) + 1
     = length (library dune_only))%nat
  ∧ ¬ has_id 1 (listAll (remove_book 1 dune_only).2).
Proof.
  pose proof (remove_book_spec 1 dune_only) as Hspec.
  destruct (remove_book 1 dune_only) as [ok self'] eqn:Hrun.
  destruct Hspec as [_ Hpresent].
  destruct Hpresent as (Hok & _ & _ & Hone & Hgone & _).
  - eexists. split; [apply list_elem_of_here | reflexivity].
  - split_and!; [exact Hok | | exact Hgone].
    apply Hone. vm_compute. apply NoDup_singleton.
Defined.

(** C8: [remove_book(3)] on the collection with ids 2, 3, 3.  Adding
    three books, removing id 1 and adding a fourth gives the fourth book
    the id 3 ([len + 1]), which the third still carries.  The call
    returns [True] and removes both records: the length goes from 3 to 1,
    not down by exactly 1. *)
Theorem remove_book_shared_id_removes_two :
  Book.id <$> library after_removal_and_add = [2; 3; 3]
  ∧ has_id 3 (library after_removal_and_add)
  ∧ (remove_book 3 after_removal_and_add).1 = true
  ∧ length (library after_removal_and_add) = 3%nat
  ∧ length (library (remove_book 3 after_removal_and_add).2) = 1%nat
  ∧ (length (library (remove_book 3 after_removal_and_add).2) + 1)%nat
    ≠ length (library after_removal_and_add).
Proof.
  split_and!; try reflexivity.
  - eexists. split; [apply list_elem_of_further, list_elem_of_here | reflexivity].
  - vm_compute. lia.
Qed.

(** ** get_achievements *)

(** The strings built for the entries of the table are pairwise
    different. *)
Lemma badge_distinct e1 e2 :
  e1 ∈ ACHIEVEMENTS → e2 ∈ ACHIEVEMENTS → badge e1 = badge e2 → e1 = e2.
Proof.
  unfold ACHIEVEMENTS. rewrite !elem_of_cons, !elem_of_nil.
  intros [->|[->|[->|[]]]] [->|[->|[->|[]]]] Heq; try reflexivity;
    vm_compute in Heq; discriminate.
Qed.

(** C9: the earned badges depend on the number of records only (two
    managers with libraries of the same length earn the same badges,
    whatever their read flags); the result is the table, in its declared
    order, restricted to the entries whose threshold the count meets, so
    the badge of threshold 5 is listed exactly when the count is at least
    5, that of threshold 20 at least 20 and that of threshold 50 at least
    50. *)
Theorem get_achievements_spec (self : LibraryManager) :
  let total_books := Z.of_nat (length (library self)) in
  get_achievements self =
    badge <$> filter (λ entry, books entry.2 ≤ total_books) ACHIEVEMENTS
  ∧ get_achievements self =
      (if bool_decide (5 ≤ total_books)
       then [127942%N :: lit " Novice Reader"] else [])
      ++ (if bool_decide (20 ≤ total_books)
          then [128027%N :: lit " Book Worm"] else [])
      ++ (if bool_decide (50 ≤ total_books)
          then [128218%N :: lit " Literary Master"] else [])
  ∧ sublist (get_achievements self) (badge <$> ACHIEVEMENTS)
  ∧ (∀ entry, entry ∈ ACHIEVEMENTS →
       (badge entry ∈ get_achievements self ↔ books entry.2 ≤ total_books))
  ∧ (∀ other, length (library other) = length (library self) →
       get_achievements other = get_achievements self).
Proof.
  intros total_books.
  assert (get_achievements self =
    badge <$> filter (λ entry, books entry.2 ≤ total_books) ACHIEVEMENTS)
    as Hfilter.
  { unfold get_achievements, ACHIEVEMENTS. fold total_books.
    rewrite !filter_cons, filter_nil. cbn [foldl books icon snd].
    repeat case_bool_decide; repeat case_decide; try done; lia. }
  split_and!.
  - done.
  - rewrite Hfilter. unfold ACHIEVEMENTS.
    rewrite !filter_cons, filter_nil. cbn [books snd].
    repeat case_bool_decide; repeat case_decide; try done; lia.
  - rewrite Hfilter. apply fmap_sublist, sublist_filter.
  - intros entry Hentry. rewrite Hfilter. split.
    + intros (e & Hbadge & [He Hin]%list_elem_of_filter)%list_elem_of_fmap.
      by rewrite (badge_distinct entry e).
    + intros Hearned. apply list_elem_of_fmap. exists entry.
      split; [done|]. by apply list_elem_of_filter.
  - intros other Hlen. unfold get_achievements. by rewrite Hlen.
Qed.

Lemma get_achievements_spec_witness :
  badge (lit "Novice Reader", mkCriteria 5 [127942%N])
    ∈ get_achievements after_removal_and_add
  ↔ 5 ≤ Z.of_nat (length (library after_removal_and_add)).
Proof.
  destruct (get_achievements_spec after_removal_and_add)
    as (_ & _ & _ & Hearned & _).
  apply Hearned. apply list_elem_of_here.
Defined.

(** ** Worked scenarios *)

Example strip_dune : strip (lit "  Dune	 ") = lit "Dune".
Proof. reflexivity. Qed.

Example strip_blank : strip (lit " 	 ") = [].
Proof. reflexivity. Qed.

(** Adding "Dune" to an empty library, then reporting 100%. *)
Example dune_scenario :
  Book.id <$> listAll dune_only = [1]
  ∧ Book.progress <$> listAll dune_only = [0]
  ∧ let '(ok, self') := update_progress nov_3_2026 11 1 100 dune_only in
    ok = Returned true
    ∧ Book.read <$> listAll self' = [true]
    ∧ Book.progress <$> listAll self' = [100]
    ∧ reading_streak (user_data self') = 1
    ∧ books_read_this_month (user_data self') = 1.
Proof. vm_compute. by repeat split. Qed.

Example streak_after_yesterday :
  reading_streak
    (user_data (on_book_completed nov_3_2026 11 read_yesterday).2) = 5.
Proof. reflexivity. Qed.

Example streak_after_gap :
  reading_streak
    (user_data (on_book_completed nov_3_2026 11 read_in_october).2) = 1.
Proof. reflexivity. Qed.

Example streak_same_day :
  reading_streak
    (user_data
       (on_book_completed nov_3_2026 11
          (on_book_completed nov_3_2026 11 read_yesterday).2).2) = 5.
Proof. reflexivity. Qed.

Example month_rollover :
  books_read_this_month
    (user_data (on_book_completed nov_3_2026 11 read_in_october).2) = 1
  ∧ month (user_data (on_book_completed nov_3_2026 11 read_in_october).2)
    = 11.
Proof. by split. Qed.

Example achievements_empty : get_achievements fresh = [].
Proof. reflexivity. Qed.

(** ** The invariant along sequences of operations *)

(** Starting from a library that satisfies the invariant, every sequence
    of [add_book], [remove_book] and [update_progress] calls whose raw
    progress values are at most 100 ends in a library that satisfies
    it. *)
Lemma run_invariant year_now ops :
  ∀ self,
    Forall progress_at_most_100 ops →
    library_invariant (library self) →
    library_invariant (library (run year_now ops self)).
Proof.
  unfold run. induction ops as [|op ops IH]; intros self Hops Hinv; [done|].
  apply Forall_cons in Hops as [Hop Hops].
  simpl. apply IH; [done|].
  destruct op; simpl in *.
  - by apply add_book_invariant.
  - by apply remove_book_invariant.
  - by apply update_progress_invariant.
Qed.

Lemma run_from_load_invariant year_now month_now lf uf ops :
  match lf with
  | JsonList data => stored_invariant data
  | _ => True
  end →
  Forall progress_at_most_100 ops →
  library_invariant (library (run year_now ops (init month_now lf uf))).
Proof.
  intros Hfile Hops. apply run_invariant; [done|].
  by apply load_library_invariant.
Qed.

(** * Further properties of the operations *)

(** ** update_progress: unknown ids, flags, repetition *)

Lemma find_absent book_id (l : list Book.t) :
  ¬ has_id book_id l →
  list_find (λ book, Book.id book = book_id) l = None.
Proof.
  intros Hno. apply list_find_None, Forall_forall.
  intros b Hb Hid. apply Hno. by exists b.
Qed.

(** For an id that no record carries, [update_progress] returns [False]
    and leaves the manager as it was: no record is touched, the user
    state is the same and nothing is written. *)
Theorem update_progress_unknown_id (today : date) (current_month : Z)
    (book_id p : Z) (self : LibraryManager) :
  ¬ has_id book_id (library self) →
  update_progress today current_month book_id p self = (Returned false, self).
Proof. intros Hno. by apply update_progress_missing, find_absent. Qed.

Lemma update_progress_unknown_id_witness :
  update_progress nov_3_2026 11 7 100 dune_only
  = (Returned false, dune_only).
Proof.
  apply (update_progress_unknown_id nov_3_2026 11 7 100 dune_only).
  intros (b & Hb & Hid). apply list_elem_of_singleton in Hb.
  subst b. vm_compute in Hid. discriminate.
Defined.

(** The record [update_progress] stores in place of [book]. *)
Lemma progress_updated_record (p : Z) (book : Book.t) :
  let book' :=
    if bool_decide (p = 100) && negb (Book.read book)
    then Book.set_read true (Book.set_progress (clamp p) book)
    else Book.set_progress (clamp p) book in
  Book.id book' = Book.id book
  ∧ Book.progress book' = clamp p
  ∧ (Book.read book = true → Book.read book' = true)
  ∧ (Book.read book' = true ↔ Book.read book = true ∨ p = 100).
Proof.
  simpl. destruct (bool_decide (p = 100)) eqn:Hp, (Book.read book) eqn:Hr;
    simpl; rewrite ?Hr; (split_and!; [done..|]).
  - apply bool_decide_eq_true in Hp. naive_solver.
  - apply bool_decide_eq_true in Hp. naive_solver.
  - naive_solver.
  - apply bool_decide_eq_false in Hp. split; [done | by intros [?|?]].
Qed.

(** Whatever its arguments and its result, [update_progress] keeps the
    length of the collection and the id at every position, and never
    clears a read flag: a record that was read is still read. *)
Theorem update_progress_keeps_ids_and_read (today : date)
    (current_month : Z) (book_id p : Z) (self : LibraryManager) :
  let self' := (update_progress today current_month book_id p self).2 in
  length (library self') = length (library self)
  ∧ Book.id <$> library self' = Book.id <$> library self
  ∧ ∀ j book, library self !! j = Some book →
      ∃ book', library self' !! j = Some book'
        ∧ Book.id book' = Book.id book
        ∧ (Book.read book = true → Book.read book' = true).
Proof.
  unfold update_progress. rewrite update_progress_loop_find.
  destruct (list_find _ _) as [[i book0]|] eqn:Hfind; cbn [snd].
  - rewrite library_progress_updated.
    apply list_find_Some in Hfind as (Hi & Hid & _).
    destruct (progress_updated_record p book0) as (Hid' & _ & Hread & _).
    split_and!.
    + by rewrite length_insert.
    + rewrite list_fmap_insert, Hid'. by apply list_insert_id, list_lookup_fmap_Some_2.
    + intros j book Hj. destruct (decide (j = i)) as [->|Hne].
      * rewrite list_lookup_insert_eq by (by eapply lookup_lt_Some).
        assert (book = book0) as -> by congruence. eauto.
      * rewrite list_lookup_insert_ne by done. eauto.
  - split_and!; [done..|]. eauto.
Qed.

(** Repeating a call of [update_progress] with the same id and value
    changes nothing more: the collection is the one the first call left,
    the user state is not updated a second time, and the only further
    write is the library. *)
Theorem update_progress_repeated (today today' : date)
    (current_month current_month' : Z) (book_id p : Z)
    (self : LibraryManager) :
  let first := (update_progress today current_month book_id p self).2 in
  let second := (update_progress today' current_month' book_id p first).2 in
  library second = library first
  ∧ user_data second = user_data first
  ∧ ∀ w, w ∈ writes second → w ∈ writes first ∨ w = WriteLibrary (library first).
Proof.
  intros first second. subst second first.
  destruct (list_find (λ b, Book.id b = book_id) (library self))
    as [[i book]|] eqn:Hfind.
  - rewrite (update_progress_found today current_month book_id p self i book)
      by done.
    set (first := (progress_updated today current_month p i book self).2).
    destruct (progress_updated_record p book) as (Hid & Hprog & _ & Hread).
    set (book' := if bool_decide (p = 100) && negb (Book.read book)
                  then Book.set_read true (Book.set_progress (clamp p) book)
                  else Book.set_progress (clamp p) book) in *.
    assert (library first = <[i := book']> (library self)) as Hlib
      by apply library_progress_updated.
    assert (list_find (λ b, Book.id b = book_id) (library first)
            = Some (i, book')) as Hfind'.
    { rewrite Hlib. apply (find_insert_same_id _ _ _ book); [done|].
      apply list_find_Some in Hfind as (_ & <- & _). done. }
    rewrite (update_progress_found _ _ _ _ _ i book') by done. cbn [snd].
    assert (bool_decide (p = 100) && negb (Book.read book') = false) as Hno.
    { destruct (bool_decide (p = 100)) eqn:Hp; [|done].
      apply bool_decide_eq_true in Hp.
      rewrite (proj2 Hread) by (by right). done. }
    assert (Book.set_progress (clamp p) book' = book') as Hsame.
    { clear -Hprog. destruct book'; unfold Book.set_progress; simpl in *.
      by rewrite Hprog. }
    clearbody first book'.
    unfold progress_updated. rewrite Hno, Hsame.
    unfold _save_library, set_book, set_library.
    cbn [snd library user_data writes].
    rewrite Hlib, list_insert_insert_eq. split_and!; [done..|].
    intros w [Hw| ->%list_elem_of_singleton]%elem_of_app; auto.
  - rewrite (update_progress_missing today current_month book_id p self)
      by done.
    cbn [snd].
    rewrite (update_progress_missing today' current_month' book_id p self)
      by done.
    auto.
Qed.

(** ** Progress stays between 0 and 100 *)

Lemma apply_operation_progress_in_range year_now op self :
  progress_in_range (library self) →
  progress_in_range (library (apply_operation year_now self op)).
Proof.
  unfold progress_in_range. intros Hin. destruct op; simpl.
  - unfold add_book. destruct (negb _); [done|]. simpl.
    apply Forall_app. split; [done|]. by apply Forall_singleton.
  - unfold remove_book. rewrite Forall_forall in Hin.
    case_bool_decide; simpl; apply Forall_forall;
      intros b [_ Hb]%list_elem_of_filter; by apply Hin.
  - unfold update_progress. rewrite update_progress_loop_find.
    destruct (list_find _ _) as [[i book]|]; [|done]. cbn [snd].
    rewrite library_progress_updated. apply Forall_insert; [done|].
    destruct (progress_updated_record progress book) as (_ & -> & _).
    apply clamp_range.
Qed.

(** Every sequence of store operations, with any raw progress values,
    keeps every stored progress between 0 and 100 once the collection
    it starts from has that property (as the empty collection does). *)
Theorem run_progress_in_range (year_now : Z) (ops : list Operation)
    (self : LibraryManager) :
  progress_in_range (library self) →
  progress_in_range (library (run year_now ops self)).
Proof.
  unfold run. revert self.
  induction ops as [|op ops IH]; intros self Hin; [done|].
  simpl. by apply IH, apply_operation_progress_in_range.
Qed.

Lemma run_progress_in_range_witness :
  progress_in_range
    (library (run 2026 [UpdateProgress nov_3_2026 11 1 250; RemoveBook 9]
                dune_only)).
Proof.
  apply (run_progress_in_range 2026 _ dune_only).
  apply Forall_singleton. vm_compute. split; discriminate.
Defined.

(** ** remove_book: what stays, and removing twice *)

Lemma count_id_filter_other (k m : Z) (l : list Book.t) :
  k ≠ m →
  count_id m (filter (λ book, Book.id book ≠ k) l) = count_id m l.
Proof.
  unfold count_id. intros Hkm. induction l as [|b l IH]; [done|].
  rewrite !filter_cons.
  destruct (decide (Book.id b = m)) as [Hm|Hm].
  - rewrite decide_True by congruence.
    rewrite filter_cons, decide_True by done. simpl. by rewrite IH.
  - destruct (decide (Book.id b ≠ k)); [|done].
    by rewrite filter_cons, decide_False.
Qed.

Lemma library_remove_book book_id self :
  library (remove_book book_id self).2 =
    filter (λ book, Book.id book ≠ book_id) (library self).
Proof. unfold remove_book. by case_bool_decide. Qed.

(** The collection left by [remove_book] is the one before with the
    records carrying the id filtered out: the other records stay, each
    as it was, as many times as it occurred and in the order they had;
    at every position before the first record carrying the id nothing
    moves; the number of records with any other id is the same; and the
    user state is not touched. *)
Theorem remove_book_keeps_others (book_id : Z) (self : LibraryManager) :
  let self' := (remove_book book_id self).2 in
  library self' = filter (λ book, Book.id book ≠ book_id) (library self)
  ∧ sublist (library self') (library self)
  ∧ (∀ book, book ∈ library self' ↔
       book ∈ library self ∧ Book.id book ≠ book_id)
  ∧ (∀ other, other ≠ book_id →
       count_id other (library self') = count_id other (library self))
  ∧ (∀ pre post,
       library self = pre ++ post →
       ¬ has_id book_id pre →
       ∃ post', library self' = pre ++ post')
  ∧ user_data self' = user_data self.
Proof.
  intros self'. subst self'.
  rewrite library_remove_book.
  split_and!;
    [done|apply sublist_filter| | | |unfold remove_book; by case_bool_decide].
  - intros book. rewrite list_elem_of_filter. tauto.
  - intros other Hother. by apply count_id_filter_other.
  - intros pre post -> Hpre. rewrite filter_app.
    rewrite (filter_other_ids_absent book_id pre) by done. eauto.
Qed.

(** Removing the same id a second time returns [False] and changes
    nothing: no record goes and nothing is written. *)
Theorem remove_book_twice (book_id : Z) (self : LibraryManager) :
  let first := (remove_book book_id self).2 in
  remove_book book_id first = (false, first).
Proof.
  intros first.
  assert (¬ has_id book_id (library first)) as Hgone.
  { unfold first. rewrite library_remove_book. apply filter_other_ids_gone. }
  clearbody first. unfold remove_book.
  rewrite filter_other_ids_absent by done.
  rewrite bool_decide_eq_false_2 by (cbn [library set_library]; lia).
  by destruct first.
Qed.

(** ** Ids *)

Lemma update_progress_ids today current_month book_id p self :
  Book.id <$> library (update_progress today current_month book_id p self).2
  = Book.id <$> library self
  ∧ length (library (update_progress today current_month book_id p self).2)
    = length (library self).
Proof.
  unfold update_progress. rewrite update_progress_loop_find.
  destruct (list_find _ _) as [[i book0]|] eqn:Hfind; cbn [snd]; [|done].
  rewrite library_progress_updated.
  apply list_find_Some in Hfind as (Hi & Hid & _).
  destruct (progress_updated_record p book0) as (Hid' & _).
  rewrite list_fmap_insert, Hid', length_insert. split; [|done].
  by apply list_insert_id, list_lookup_fmap_Some_2.
Qed.

Lemma ids_sequential_NoDup (l : list Book.t) :
  ids_sequential l → NoDup (Book.id <$> l).
Proof.
  unfold ids_sequential. intros ->.
  apply (NoDup_fmap_2 Z.of_nat), NoDup_seq.
Qed.

Lemma ids_sequential_has_id (l : list Book.t) (k : Z) :
  ids_sequential l → 1 ≤ k ≤ Z.of_nat (length l) → has_id k l.
Proof.
  unfold ids_sequential, has_id. intros Hids Hk.
  assert (k ∈ Book.id <$> l) as (b & -> & Hb)%list_elem_of_fmap; [|eauto].
  rewrite Hids. apply list_elem_of_fmap. exists (Z.to_nat k).
  split; [lia|]. apply elem_of_seq. lia.
Qed.

Lemma add_book_ids_sequential year_now now_iso title author year genre read
    rating notes cover_image self :
  ids_sequential (library self) →
  ids_sequential
    (library (add_book year_now now_iso title author year genre read rating
                notes cover_image self).2).
Proof.
  unfold ids_sequential, add_book. intros Hids.
  destruct (negb _); [done|]. cbn [snd library _save_library set_library].
  rewrite fmap_app, length_app, seq_app, fmap_app, Hids. simpl.
  do 3 f_equal. lia.
Qed.

(** As long as nothing is removed, the ids are the positions: starting
    from a collection whose ids are 1, 2, ..., n in order (the empty one,
    for instance), every sequence of [add_book] and [update_progress]
    calls ends in a collection whose ids are 1, 2, ..., its length, so no
    two records share an id. *)
Theorem run_without_removal_ids (year_now : Z) (ops : list Operation)
    (self : LibraryManager) :
  Forall (λ op, ¬ is_removal op) ops →
  ids_sequential (library self) →
  ids_sequential (library (run year_now ops self))
  ∧ NoDup (Book.id <$> library (run year_now ops self)).
Proof.
  intros Hops Hids.
  assert (ids_sequential (library (run year_now ops self))) as Hrun;
    [|by auto using ids_sequential_NoDup].
  unfold run. revert self Hids.
  induction Hops as [|op ops Hop _ IH]; intros self Hids; [done|].
  simpl. apply IH. destruct op; simpl in *.
  - by apply add_book_ids_sequential.
  - done.
  - unfold ids_sequential in *.
    destruct (update_progress_ids today current_month book_id progress self)
      as [-> ->].
    done.
Qed.

Lemma run_without_removal_ids_witness :
  ids_sequential
    (library (run 2026
                [AddBook (lit "2026-11-03T09:31:00") (lit "Solaris")
                   (lit "Lem") 1961 (lit "Sci-Fi") false None [] None;
                 UpdateProgress nov_3_2026 11 2 40] dune_only))
  ∧ NoDup
      (Book.id <$>
         library (run 2026
                    [AddBook (lit "2026-11-03T09:31:00") (lit "Solaris")
                       (lit "Lem") 1961 (lit "Sci-Fi") false None [] None;
                     UpdateProgress nov_3_2026 11 2 40] dune_only)).
Proof.
  apply (run_without_removal_ids 2026 _ dune_only).
  - repeat constructor; simpl; tauto.
  - reflexivity.
Defined.

(** The id given by [add_book] can already be in use.  When the ids are
    1, ..., n and a record other than the last is removed, the next book
    added gets the id n, which the last record still carries: two records
    then share the id n, and the ids are no longer distinct. *)
Theorem add_after_removal_reuses_id (year_now : Z)
    (now_iso title author : str) (year : Z) (genre : str) (read : bool)
    (rating : option float) (notes : str) (cover_image : option str)
    (k : Z) (self : LibraryManager) :
  ids_sequential (library self) →
  1 ≤ k < Z.of_nat (length (library self)) →
  strip title ≠ [] → strip author ≠ [] → 1000 ≤ year ≤ year_now →
  let self' :=
    (add_book year_now now_iso title author year genre read rating notes
       cover_image (remove_book k self).2).2 in
  Book.id <$> last (library self') = Some (Z.of_nat (length (library self)))
  ∧ count_id (Z.of_nat (length (library self))) (library self') = 2%nat
  ∧ ¬ NoDup (Book.id <$> library self').
Proof.
  intros Hids Hk Ht Ha Hy self'.
  set (n := length (library self)) in *.
  pose proof (ids_sequential_NoDup _ Hids) as Hnd.
  assert (has_id k (library self)) as Hhas_k
    by (apply ids_sequential_has_id; [done | fold n; lia]).
  assert (has_id (Z.of_nat n) (library self)) as Hhas_n
    by (apply ids_sequential_has_id; [done | fold n; lia]).
  pose proof (filter_other_ids_length k (library self)) as Hlen.
  rewrite (count_id_unique k) in Hlen by done. fold n in Hlen.
  assert (library self' =
    filter (λ book, Book.id book ≠ k) (library self)
    ++ [Book.mk (Z.of_nat n) (strip title) (strip author) year genre read
          rating notes now_iso 0 cover_image]) as Hlib.
  { unfold self', add_book.
    apply str_truthy_true in Ht, Ha. apply VALID_YEARS_spec in Hy.
    rewrite Ht, Ha, Hy. cbn [negb andb snd library _save_library set_library].
    rewrite library_remove_book. do 3 f_equal. lia. }
  assert (count_id (Z.of_nat n) (library self') = 2%nat) as Hcount.
  { rewrite Hlib. unfold count_id. rewrite filter_app, length_app.
    fold (count_id (Z.of_nat n) (filter (λ book, Book.id book ≠ k) (library self))).
    rewrite count_id_filter_other by lia.
    rewrite (count_id_unique (Z.of_nat n)) by done.
    by rewrite filter_cons, decide_True. }
  split_and!.
  - rewrite Hlib, last_snoc. done.
  - done.
  - intros Hnd'. rewrite (count_id_unique (Z.of_nat n)) in Hcount; [done|done|].
    rewrite Hlib. eexists. split; [apply elem_of_app; right; apply list_elem_of_here|done].
Qed.

Lemma add_after_removal_reuses_id_witness :
  Book.id <$> last (library after_removal_and_add) = Some 3
  ∧ count_id 3 (library after_removal_and_add) = 2%nat
  ∧ ¬ NoDup (Book.id <$> library after_removal_and_add).
Proof.
  apply (add_after_removal_reuses_id 2026 (lit "2026-11-03T09:30:00")
           (lit "Foundation") (lit "Asimov") 1951 (lit "Sci-Fi") false None []
           None 1
           (add_sample "Solaris" "Lem" 1961
              (add_sample "Neuromancer" "Gibson" 1984 dune_only))).
  - reflexivity.
  - vm_compute. split; [discriminate | reflexivity].
  - vm_compute. discriminate.
  - vm_compute. discriminate.
  - lia.
Defined.

(** ** Trimming *)

Lemma lstrip_head (s : str) c : head (lstrip s) = Some c → isspace c = false.
Proof.
  induction s as [|x s IH]; simpl; [done|].
  destruct (isspace x) eqn:Hx; [done|]. by intros [= <-].
Qed.

Lemma lstrip_suffix (s : str) : lstrip s `suffix_of` s.
Proof.
  induction s as [|x s IH]; simpl; [done|].
  destruct (isspace x); [by apply suffix_cons_r | done].
Qed.

Lemma lstrip_id (s : str) :
  (∀ c, head s = Some c → isspace c = false) → lstrip s = s.
Proof. destruct s as [|x s]; simpl; [done|]. intros H. by rewrite H. Qed.

Lemma rstrip_prefix (s : str) : rstrip s `prefix_of` s.
Proof.
  unfold rstrip. destruct (lstrip_suffix (reverse s)) as [k Hk].
  exists (reverse k).
  rewrite <-reverse_app, <-Hk. by rewrite reverse_involutive.
Qed.

Lemma rstrip_last (s : str) c : last (rstrip s) = Some c → isspace c = false.
Proof. unfold rstrip. rewrite last_reverse. apply lstrip_head. Qed.

Lemma rstrip_head (s : str) c : head (rstrip s) = Some c → head s = Some c.
Proof.
  destruct (rstrip_prefix s) as [k Hk]. intros Hc.
  rewrite Hk. by destruct (rstrip s).
Qed.

Lemma rstrip_id (s : str) :
  (∀ c, last s = Some c → isspace c = false) → rstrip s = s.
Proof.
  intros H. unfold rstrip. rewrite lstrip_id; [apply reverse_involutive|].
  intros c Hc. apply H. by rewrite <-head_reverse.
Qed.

Lemma strip_trimmed (s : str) : trimmed (strip s).
Proof.
  unfold trimmed, strip. split.
  - intros c Hc%rstrip_head. by apply lstrip_head in Hc.
  - apply rstrip_last.
Qed.

Lemma strip_trimmed_id (s : str) : trimmed s → strip s = s.
Proof.
  intros [Hhead Hlast]. unfold strip.
  rewrite (lstrip_id s) by done. by apply rstrip_id.
Qed.

(** The record appended by a successful [add_book] has passed the
    validation and is stored trimmed: title and author are non-empty,
    carry no whitespace at either end (trimming them again changes
    nothing), and the year lies between 1000 and the current year. *)
Theorem add_book_stores_trimmed (year_now : Z) (now_iso title author : str)
    (year : Z) (genre : str) (read : bool) (rating : option float)
    (notes : str) (cover_image : option str) (self self' : LibraryManager) :
  add_book year_now now_iso title author year genre read rating notes
    cover_image self = (true, self') →
  ∃ book,
    last (library self') = Some book
    ∧ Book.title book ≠ [] ∧ trimmed (Book.title book)
    ∧ strip (Book.title book) = Book.title book
    ∧ Book.author book ≠ [] ∧ trimmed (Book.author book)
    ∧ strip (Book.author book) = Book.author book
    ∧ 1000 ≤ Book.year book ≤ year_now
    ∧ Book.notes book = notes.
Proof.
  unfold add_book.
  destruct (str_truthy (strip title) && str_truthy (strip author)
            && VALID_YEARS year_now year) eqn:Hvalid; [|done].
  apply andb_true_iff in Hvalid as [[Ht Ha]%andb_true_iff Hy].
  apply str_truthy_true in Ht, Ha. apply VALID_YEARS_spec in Hy.
  intros [= <-]. eexists. cbn [library _save_library set_library].
  rewrite last_snoc. split; [reflexivity|]. simpl.
  split_and!; auto using strip_trimmed, strip_trimmed_id; lia.
Qed.

Lemma add_book_stores_trimmed_witness :
  ∃ book,
    last (library dune_only) = Some book
    ∧ Book.title book ≠ [] ∧ trimmed (Book.title book)
    ∧ strip (Book.title book) = Book.title book
    ∧ Book.author book ≠ [] ∧ trimmed (Book.author book)
    ∧ strip (Book.author book) = Book.author book
    ∧ 1000 ≤ Book.year book ≤ 2026
    ∧ Book.notes book = [].
Proof.
  apply (add_book_stores_trimmed 2026 (lit "2026-11-03T09:30:00")
           (lit "Dune") (lit "Herbert") 1965 (lit "Sci-Fi") false None []
           None fresh dune_only).
  reflexivity.
Defined.

(** ** The user state *)

(** [set_monthly_goal] stores [max(0, goal)]: a negative goal becomes 0
    and the stored goal is never negative.  The streak, the last reading
    date, the monthly count, the month and the library are untouched, and
    the user state is written once. *)
Theorem set_monthly_goal_spec (goal : Z) (self : LibraryManager) :
  let self' := set_monthly_goal goal self in
  monthly_goal (user_data self') = Z.max 0 goal
  ∧ 0 ≤ monthly_goal (user_data self')
  ∧ (goal < 0 → monthly_goal (user_data self') = 0)
  ∧ (0 ≤ goal → monthly_goal (user_data self') = goal)
  ∧ reading_streak (user_data self') = reading_streak (user_data self)
  ∧ last_reading_date (user_data self') = last_reading_date (user_data self)
  ∧ books_read_this_month (user_data self')
    = books_read_this_month (user_data self)
  ∧ month (user_data self') = month (user_data self)
  ∧ library self' = library self
  ∧ writes self' = writes self ++ [WriteUserData (user_data self')].
Proof. simpl. split_and!; try done; lia. Qed.

Lemma completion_dates_aux today current_month self self' :
  on_book_completed today current_month self = (Returned tt, self') →
  last_reading_date (user_data self') = Some today
  ∧ month (user_data self') = current_month.
Proof.
  intros Hdone.
  destruct (on_book_completed_cases today current_month self)
    as [(self1 & Hstreak & Hrun)|(e & _ & Hrun)];
    rewrite Hrun in Hdone; [|done].
  injection Hdone as <-.
  destruct (streak_fields_update_monthly_goal current_month self1)
    as (_ & -> & _).
  destruct (update_monthly_goal_spec current_month self1) as (-> & _).
  split; [|done].
  pose proof (update_reading_streak_spec today self self1 Hstreak) as Hs.
  simpl in Hs.
  destruct (last_reading_date (user_data self)) as [last_date|] eqn:Hlast.
  - destruct Hs as (Hsame & Hnext & Hother).
    destruct (decide (today = last_date)) as [->|Hne].
    + by apply Hsame.
    + destruct (decide (today = last_date + 1)); [by apply Hnext|].
      apply Hother. lia.
  - apply Hs.
Qed.

(** A completion event that returns leaves the last reading date at
    today and the stored month at the current month, in every branch (on
    the same day as the last completion the date is left alone, and is
    today), and does not touch the library.  One that raises does so with
    [OverflowError], because the day after the last reading date does not
    exist, and leaves the manager exactly as it was. *)
Theorem completion_dates (today : date) (current_month : Z)
    (self : LibraryManager) :
  match on_book_completed today current_month self with
  | (Returned _, self') =>
      streak_update_returns today (user_data self)
      ∧ last_reading_date (user_data self') = Some today
      ∧ month (user_data self') = current_month
      ∧ library self' = library self
  | (Raised e, self') =>
      ¬ streak_update_returns today (user_data self)
      ∧ e = OverflowError
      ∧ self' = self
  end.
Proof.
  pose proof (library_on_book_completed today current_month self) as Hlib.
  destruct (update_reading_streak_result today self) as [[Hyes _]|[Hno _]].
  - destruct (on_book_completed_returns today current_month self Hyes)
      as (self1 & _ & Hrun).
    destruct (completion_dates_aux today current_month self _ Hrun)
      as (Hd & Hm).
    rewrite Hrun in *. done.
  - by rewrite (on_book_completed_raises today current_month self Hno).
Qed.

(** Two completion events on the same day (two books finished), the
    first of which returns: the second returns as well, leaves the streak
    and the last reading date as the first set them, and counts one more
    book for the month. *)
Theorem completion_twice_same_day (today : date) (current_month : Z)
    (self : LibraryManager) :
  let first := on_book_completed today current_month self in
  let second := on_book_completed today current_month first.2 in
  first.1 = Returned tt →
  second.1 = Returned tt
  ∧ reading_streak (user_data second.2) = reading_streak (user_data first.2)
  ∧ last_reading_date (user_data second.2)
    = last_reading_date (user_data first.2)
  ∧ books_read_this_month (user_data second.2)
    = books_read_this_month (user_data first.2) + 1
  ∧ month (user_data second.2) = month (user_data first.2).
Proof.
  intros first second Hfirst. subst second.
  destruct first as [r s1] eqn:Hrun. cbn [fst snd] in *. subst r.
  destruct (completion_dates_aux today current_month self s1 Hrun)
    as (Hd & Hm).
  clear Hrun. unfold on_book_completed, _update_reading_streak.
  rewrite Hd, bool_decide_eq_true_2 by done. cbn [fst snd].
  destruct (streak_fields_update_monthly_goal current_month s1)
    as (-> & -> & _).
  destruct (update_monthly_goal_spec current_month s1) as (-> & ->).
  rewrite bool_decide_eq_false_2 by (by intros ?).
  by rewrite Hm.
Qed.

Lemma completion_twice_same_day_witness :
  (on_book_completed nov_3_2026 11
     (on_book_completed nov_3_2026 11 read_yesterday).2).1 = Returned tt
  ∧ reading_streak
      (user_data (on_book_completed nov_3_2026 11
                    (on_book_completed nov_3_2026 11 read_yesterday).2).2)
    = reading_streak
        (user_data (on_book_completed nov_3_2026 11 read_yesterday).2)
  ∧ last_reading_date
      (user_data (on_book_completed nov_3_2026 11
                    (on_book_completed nov_3_2026 11 read_yesterday).2).2)
    = last_reading_date
        (user_data (on_book_completed nov_3_2026 11 read_yesterday).2)
  ∧ books_read_this_month
      (user_data (on_book_completed nov_3_2026 11
                    (on_book_completed nov_3_2026 11 read_yesterday).2).2)
    = books_read_this_month
        (user_data (on_book_completed nov_3_2026 11 read_yesterday).2) + 1
  ∧ month
      (user_data (on_book_completed nov_3_2026 11
                    (on_book_completed nov_3_2026 11 read_yesterday).2).2)
    = month (user_data (on_book_completed nov_3_2026 11 read_yesterday).2).
Proof.
  apply (completion_twice_same_day nov_3_2026 11 read_yesterday).
  reflexivity.
Defined.

(** When the first event raises, so does the second, and nothing is
    counted: the user state dated 9999-12-31 is left as it is. *)
Example completion_twice_on_last_day :
  let first := on_book_completed nov_3_2026 11 read_on_last_day in
  let second := on_book_completed nov_3_2026 11 first.2 in
  first.1 = Raised OverflowError
  ∧ second.1 = Raised OverflowError
  ∧ user_data second.2 = user_data read_on_last_day.
Proof. vm_compute. by repeat split. Qed.

(** ** The counters along sequences of calls *)

Lemma user_data_add_book year_now now_iso title author year genre read
    rating notes cover_image self :
  user_data (add_book year_now now_iso title author year genre read rating
               notes cover_image self).2 = user_data self.
Proof. unfold add_book. by destruct (negb _). Qed.

Lemma user_data_remove_book book_id self :
  user_data (remove_book book_id self).2 = user_data self.
Proof. unfold remove_book. by case_bool_decide. Qed.

(** The user state after [update_progress]: the one before, or the one
    a single completion event leaves. *)
Lemma user_data_update_progress today current_month book_id p self :
  user_data (update_progress today current_month book_id p self).2
    = user_data self
  ∨ ∃ library',
      user_data (update_progress today current_month book_id p self).2
      = user_data (on_book_completed today current_month
                     (set_library library' self)).2.
Proof.
  unfold update_progress. rewrite update_progress_loop_find.
  destruct (list_find _ _) as [[i book]|]; [|by left].
  unfold progress_updated.
  destruct (bool_decide (p = 100) && negb (Book.read book)); [|by left].
  right.
  exists (<[(0 + i)%nat :=
             Book.set_read true (Book.set_progress (clamp p) book)]>
            (library self)).
  unfold set_book.
  by destruct (on_book_completed _ _ _) as [[[]|e] s].
Qed.

Lemma on_book_completed_counters today current_month self :
  counters_consistent (user_data self) →
  counters_consistent
    (user_data (on_book_completed today current_month self).2).
Proof.
  intros Hc.
  destruct (on_book_completed_cases today current_month self)
    as [(self1 & Hstreak & Hrun)|(e & _ & ->)]; [|done].
  destruct (completion_dates_aux today current_month self _ Hrun) as (Hd & _).
  rewrite Hrun in *. cbn [snd] in *.
  unfold counters_consistent in *. destruct Hc as (Hs0 & Hgoal & Hcount).
  destruct (streak_fields_update_monthly_goal current_month self1)
    as (Hs & _ & Hg).
  destruct (update_monthly_goal_spec current_month self1) as (_ & Hb).
  destruct (monthly_fields_update_reading_streak today self)
    as (_ & Hb' & Hg').
  rewrite Hstreak in Hb', Hg'. cbn [snd] in Hb', Hg'.
  pose proof (update_reading_streak_spec today self self1 Hstreak) as Hspec.
  simpl in Hspec.
  rewrite Hd, Hs, Hg, Hb, Hb', Hg'.
  split_and!; [|done|case_bool_decide; lia].
  destruct (last_reading_date (user_data self)) as [last_date|].
  - destruct Hspec as (Hsame & Hnext & Hother).
    destruct (decide (today = last_date)) as [->|].
    { destruct Hsame as [-> _]; done. }
    destruct (decide (today = last_date + 1)).
    { destruct Hnext as [-> _]; [done|lia]. }
    destruct Hother as [-> _]; [lia|done].
  - by destruct Hspec as [-> _].
Qed.

Lemma apply_call_counters year_now c self :
  counters_consistent (user_data self) →
  counters_consistent (user_data (apply_call year_now self c)).
Proof.
  intros Hc. destruct c as [[| |today current_month book_id p]|goal]; simpl.
  - by rewrite user_data_add_book.
  - by rewrite user_data_remove_book.
  - destruct (user_data_update_progress today current_month book_id p self)
      as [->|[library' ->]]; [done|].
    by apply on_book_completed_counters.
  - unfold counters_consistent in *. simpl. split_and!; [tauto|lia|tauto].
Qed.

(** From the user state of a first run (streak 0, no reading date, goal
    0, count 0), and from any user state with these properties, every
    sequence of calls keeps the counters consistent: the streak is at
    least 1 as soon as a reading date is recorded and is 0 before, and
    neither the monthly goal nor the monthly count is negative. *)
Theorem run_calls_counters (year_now : Z) (calls : list Call)
    (self : LibraryManager) :
  counters_consistent (user_data self) →
  counters_consistent (user_data (run_calls year_now calls self)).
Proof.
  unfold run_calls. revert self.
  induction calls as [|c calls IH]; intros self Hc; [done|].
  simpl. by apply IH, apply_call_counters.
Qed.

Lemma run_calls_counters_witness :
  counters_consistent
    (user_data
       (run_calls 2026
          [StoreCall (UpdateProgress nov_3_2026 11 1 100); SetMonthlyGoal (-4)]
          dune_only)).
Proof.
  apply (run_calls_counters 2026 _ dune_only).
  vm_compute. repeat split; discriminate.
Defined.

(** ** Write-through: what a restart reads back *)

Lemma load_json_of_book (l : list Book.t) :
  _load_library (JsonList (json_of_book <$> l)) = l.
Proof.
  simpl. rewrite <-list_fmap_compose. rewrite <-(list_fmap_id l) at 2.
  apply list_fmap_ext. by intros _ [] _.
Qed.

Lemma files_after_snoc files ws w :
  files_after files (ws ++ [w]) = write_file (files_after files ws) w.
Proof. unfold files_after. by rewrite foldl_app. Qed.

Lemma synced_save_library month_now files self :
  user_data_on_disk month_now files (writes self) = user_data self →
  synced month_now files (_save_library self).
Proof.
  unfold synced, library_on_disk, user_data_on_disk. intros Hu.
  cbn [writes library user_data _save_library].
  rewrite files_after_snoc. cbn [write_file fst snd].
  by rewrite load_json_of_book.
Qed.

Lemma synced_save_user_data month_now files self :
  library_on_disk files (writes self) = library self →
  synced month_now files (_save_user_data self).
Proof.
  unfold synced, library_on_disk, user_data_on_disk. intros Hl.
  cbn [writes library user_data _save_user_data].
  by rewrite files_after_snoc.
Qed.

Lemma library_on_disk_update_reading_streak files today self :
  library_on_disk files (writes (_update_reading_streak today self).2)
  = library_on_disk files (writes self).
Proof.
  unfold _update_reading_streak, library_on_disk.
  destruct (last_reading_date (user_data self)) as [last_date|].
  - case_bool_decide; [done|].
    destruct (date_add_days last_date 1); [|done].
    case_bool_decide; cbn [snd writes _save_user_data set_user_data];
      by rewrite files_after_snoc.
  - cbn [snd writes _save_user_data set_user_data].
    by rewrite files_after_snoc.
Qed.

Lemma library_on_disk_update_monthly_goal files current_month self :
  library_on_disk files (writes (_update_monthly_goal current_month self))
  = library_on_disk files (writes self).
Proof.
  unfold _update_monthly_goal, library_on_disk.
  case_bool_decide; cbn [writes _save_user_data set_user_data];
    by rewrite files_after_snoc.
Qed.

Lemma user_data_on_disk_update_monthly_goal month_now files current_month self :
  user_data_on_disk month_now files
    (writes (_update_monthly_goal current_month self))
  = user_data (_update_monthly_goal current_month self).
Proof.
  unfold _update_monthly_goal, user_data_on_disk.
  case_bool_decide; cbn [writes user_data _save_user_data set_user_data];
    by rewrite files_after_snoc.
Qed.

(** A completion event that returns leaves the user file equal to the
    user state in memory, and does not touch the library file. *)
Lemma on_book_completed_on_disk month_now files today current_month self
    self' :
  on_book_completed today current_month self = (Returned tt, self') →
  library_on_disk files (writes self') = library_on_disk files (writes self)
  ∧ user_data_on_disk month_now files (writes self') = user_data self'.
Proof.
  intros Hdone.
  destruct (on_book_completed_cases today current_month self)
    as [(self1 & Hstreak & Hrun)|(e & _ & Hrun)];
    rewrite Hrun in Hdone; [|done].
  injection Hdone as <-. split.
  - rewrite library_on_disk_update_monthly_goal.
    by rewrite <-(library_on_disk_update_reading_streak files today self),
      Hstreak.
  - apply user_data_on_disk_update_monthly_goal.
Qed.

Lemma filter_other_ids_same_length book_id (l : list Book.t) :
  ¬ (length (filter (λ book, Book.id book ≠ book_id) l) < length l)%nat →
  filter (λ book, Book.id book ≠ book_id) l = l.
Proof.
  intros Hlen. apply filter_other_ids_absent. intros Hhas%count_id_present.
  pose proof (filter_other_ids_length book_id l). lia.
Qed.

Lemma apply_call_synced year_now month_now files c self :
  synced month_now files self →
  call_result year_now self c = Returned tt →
  synced month_now files (apply_call year_now self c).
Proof.
  intros [Hl Hu] Hret.
  destruct c as [[| |today current_month book_id p]|goal];
    cbn [apply_call apply_operation call_result] in *.
  - unfold add_book. destruct (negb _); [done|]. cbn [snd].
    by apply synced_save_library.
  - unfold remove_book. case_bool_decide as Hlen; cbn [snd].
    + by apply synced_save_library.
    + cbn [library set_library] in Hlen.
      rewrite filter_other_ids_same_length by done.
      by destruct self.
  - revert Hret. unfold update_progress. rewrite update_progress_loop_find.
    destruct (list_find _ _) as [[i book]|]; [|done].
    unfold progress_updated.
    destruct (bool_decide (p = 100) && negb (Book.read book)).
    + destruct (on_book_completed _ _ _) as [[[]|e] s] eqn:Hdone; [|done].
      intros _. cbn [snd]. apply synced_save_library.
      by destruct (on_book_completed_on_disk month_now files _ _ _ _ Hdone).
    + intros _. cbn [snd]. by apply synced_save_library.
  - unfold set_monthly_goal. by apply synced_save_user_data.
Qed.

(** Write-through.  Start the manager from the two files (each missing,
    unreadable, or holding what the model of the files admits), make any
    sequence of calls none of which raises, and let every write succeed:
    a manager started again from the files as they then are has the same
    library, record for record, and, when started in the same month, the
    same user state. *)
Theorem restart_reads_back (year_now month_now : Z) (lf : LibraryFile)
    (uf : UserDataFile) (calls : list Call) :
  all_return year_now calls (init month_now lf uf) →
  let self := run_calls year_now calls (init month_now lf uf) in
  let files := files_after (lf, uf) (writes self) in
  (∀ month_later,
     library (init month_later files.1 files.2) = library self)
  ∧ user_data (init month_now files.1 files.2) = user_data self.
Proof.
  intros Hall self files.
  assert (synced month_now (lf, uf) self) as [Hl Hu].
  { subst self. unfold run_calls.
    assert (synced month_now (lf, uf) (init month_now lf uf)) as Hinit
      by done.
    revert Hall Hinit. generalize (init month_now lf uf).
    induction calls as [|c calls IH]; intros s Hall Hs; [done|].
    destruct Hall as [Hret Hall].
    simpl. apply IH; [done|]. by apply apply_call_synced. }
  done.
Qed.

Lemma restart_reads_back_witness :
  let self :=
    run_calls 2026
      [StoreCall (AddBook (lit "2026-11-03T09:30:00") (lit "Dune")
                    (lit "Herbert") 1965 (lit "Sci-Fi") false None [] None);
       StoreCall (UpdateProgress nov_3_2026 11 1 100);
       SetMonthlyGoal 3]
      (init 11 FileNotFound UserFileUnreadable) in
  let files := files_after (FileNotFound, UserFileUnreadable) (writes self) in
  (∀ month_later,
     library (init month_later files.1 files.2) = library self)
  ∧ user_data (init 11 files.1 files.2) = user_data self.
Proof.
  apply (restart_reads_back 2026 11 FileNotFound UserFileUnreadable).
  vm_compute. tauto.
Defined.

(** When a call raises, memory runs ahead of the files: after
    [update_progress(1, 100)] raises on the user state dated 9999-12-31,
    the book is read in memory while nothing was written. *)
Example raise_leaves_files_behind :
  let self' := (update_progress nov_3_2026 11 1 100 read_on_last_day).2 in
  Book.read <$> library self' = [true]
  ∧ Book.read <$> library read_on_last_day = [false]
  ∧ writes self' = writes read_on_last_day.
Proof. vm_compute. by repeat split. Qed.

(** ** Achievements and the next goal *)

Lemma get_achievements_cases (self : LibraryManager) :
  let total_books := Z.of_nat (length (library self)) in
  get_achievements self =
    (if bool_decide (5 ≤ total_books)
     then [127942%N :: lit " Novice Reader"] else [])
    ++ (if bool_decide (20 ≤ total_books)
        then [128027%N :: lit " Book Worm"] else [])
    ++ (if bool_decide (50 ≤ total_books)
        then [128218%N :: lit " Literary Master"] else []).
Proof.
  intros total_books. unfold get_achievements, ACHIEVEMENTS.
  fold total_books. cbn [foldl books icon].
  repeat case_bool_decide; done.
Qed.

(** The badges come in the order of the table and none is skipped: the
    result is a prefix of the list of all badges, and a larger library
    earns at least the badges of a smaller one. *)
Theorem get_achievements_monotone (self other : LibraryManager) :
  get_achievements self `prefix_of` (badge <$> ACHIEVEMENTS)
  ∧ ((length (library self) ≤ length (library other))%nat →
     get_achievements self `prefix_of` get_achievements other).
Proof.
  rewrite !get_achievements_cases. split.
  - repeat case_bool_decide; try lia;
      (by eexists) || (eexists; reflexivity).
  - intros Hle.
    repeat case_bool_decide; try lia;
      (by eexists) || (eexists; reflexivity).
Qed.

Lemma get_achievements_monotone_witness :
  get_achievements fresh `prefix_of` get_achievements after_removal_and_add.
Proof.
  apply (get_achievements_monotone fresh after_removal_and_add).
  vm_compute. lia.
Defined.

Lemma next_goal_cases (self : LibraryManager) :
  let total_books := Z.of_nat (length (library self)) in
  next_goal self =
    if bool_decide (total_books < 5) then 5
    else if bool_decide (total_books < 20) then 20
    else if bool_decide (total_books < 50) then 50
    else 0.
Proof.
  intros total_books. unfold next_goal, ACHIEVEMENTS. fold total_books.
  cbn [fmap list_fmap snd]. rewrite !filter_cons, filter_nil. cbn [books].
  repeat case_decide; repeat case_bool_decide; try lia; reflexivity.
Qed.

(** The goal shown on the Achievements page.  It is 0 exactly when every
    badge is earned (50 books or more); otherwise it is the threshold of
    the first badge not yet earned, which is larger than the number of
    books, so the fraction [total_books / next_goal] is never a division
    by zero and lies between 0 and 1 (1 excluded). *)
Theorem next_goal_spec (self : LibraryManager) :
  let total_books := Z.of_nat (length (library self)) in
  (next_goal self = 0 ↔ 50 ≤ total_books)
  ∧ (next_goal self = 0 ↔ get_achievements self = badge <$> ACHIEVEMENTS)
  ∧ (next_goal self ≠ 0 →
       0 ≤ total_books < next_goal self
       ∧ (∃ entry, entry ∈ ACHIEVEMENTS
            ∧ books entry.2 = next_goal self
            ∧ badge entry ∉ get_achievements self)
       ∧ ∀ entry, entry ∈ ACHIEVEMENTS →
           total_books < books entry.2 → next_goal self ≤ books entry.2).
Proof.
  intros total_books.
  rewrite next_goal_cases, get_achievements_cases. fold total_books.
  unfold ACHIEVEMENTS.
  split_and!.
  - repeat case_bool_decide; split; intros; try done; lia.
  - repeat case_bool_decide; split; intros; try done; lia.
  - intros Hnz. split; [|split].
    + repeat case_bool_decide; try done; lia.
    + repeat case_bool_decide; try done; try lia.
      * eexists; split; [apply list_elem_of_here|].
        split; [done|]. by intros ?%elem_of_nil.
      * eexists; split; [apply list_elem_of_further, list_elem_of_here|].
        split; [done|]. cbn [app].
        rewrite !elem_of_cons, elem_of_nil. vm_compute.
        intros [Heq|[]]; discriminate Heq.
      * eexists; split;
          [apply list_elem_of_further, list_elem_of_further, list_elem_of_here|].
        split; [done|]. cbn [app].
        rewrite !elem_of_cons, elem_of_nil. vm_compute.
        intros [Heq|[Heq|[]]]; discriminate Heq.
    + intros entry Hentry.
      repeat (apply elem_of_cons in Hentry as [->|Hentry]);
        [..|by apply elem_of_nil in Hentry]; cbn [snd books];
        repeat case_bool_decide; lia.
Qed.

Lemma next_goal_spec_witness :
  0 ≤ Z.of_nat (length (library after_removal_and_add))
    < next_goal after_removal_and_add.
Proof.
  destruct (next_goal_spec after_removal_and_add) as (_ & _ & Hnext).
  apply Hnext. vm_compute. discriminate.
Defined.

(** ** Recommendations *)

(** [get_recommendation] never raises: every list of the table is
    non-empty.  For a genre of the table it returns one of the titles
    listed for that genre; for any other genre it returns [None]. *)
Theorem get_recommendation_spec (randbelow : nat → nat) (genre : str) :
  (∀ n, (0 < n)%nat → (randbelow n < n)%nat) →
  match get_recommendation randbelow genre with
  | Return (Some title) =>
      ∃ titles, (genre, titles) ∈ recommendations ∧ title ∈ titles
  | Return None => genre ∉ recommendations.*1
  | RaiseIndexError => False
  end.
Proof.
  intros Hrand. unfold get_recommendation, dict_contains.
  case_bool_decide as Hin; [|done].
  unfold recommendations in *. cbn [fmap list_fmap fst] in Hin.
  repeat (apply elem_of_cons in Hin as [->|Hin]);
    [..|by apply elem_of_nil in Hin];
    cbn [dict_get];
    repeat (rewrite bool_decide_eq_false_2 by (vm_compute; discriminate));
    rewrite bool_decide_eq_true_2 by done;
    simpl;
    (assert (randbelow 2 < 2)%nat as Hlt by (apply Hrand; lia));
    destruct (randbelow 2%nat) as [|[|k]]; try lia; simpl;
    eexists;
    (split;
     [ first [ apply list_elem_of_here
             | apply list_elem_of_further, list_elem_of_here
             | apply list_elem_of_further, list_elem_of_further,
                 list_elem_of_here ]
     | first [ apply list_elem_of_here
             | apply list_elem_of_further, list_elem_of_here ] ]).
Qed.

Lemma get_recommendation_spec_witness :
  ∃ titles,
    (lit "Sci-Fi", titles) ∈ recommendations ∧ lit "Dune" ∈ titles.
Proof.
  apply (get_recommendation_spec (λ _, 0%nat) (lit "Sci-Fi")).
  intros n Hn. exact Hn.
Defined.

Lemma get_recommendation_None (randbelow : nat → nat) (genre : str) :
  get_recommendation randbelow genre = Return None
  ↔ genre ∉ recommendations.*1.
Proof.
  unfold get_recommendation, dict_contains. case_bool_decide as Hin.
  - split; [|done]. by destruct (random_choice _ _).
  - done.
Qed.

(** Of the nine genres offered when adding a book, only Fiction, Sci-Fi
    and Fantasy have recommendations: for the six others, and only for
    them, the result is [None], whatever the generator. *)
Theorem get_recommendation_genres (randbelow : nat → nat) (genre : str) :
  genre ∈ GENRE_OPTIONS →
  (get_recommendation randbelow genre = Return None
   ↔ genre ∈ [lit "Non-Fiction"; lit "Mystery"; lit "Biography";
              lit "Romance"; lit "Thriller"; lit "Other"]).
Proof.
  intros Hgenre. rewrite get_recommendation_None.
  unfold GENRE_OPTIONS, recommendations in *. cbn [fmap list_fmap fst].
  rewrite !not_elem_of_cons, !elem_of_cons, !elem_of_nil.
  repeat (apply elem_of_cons in Hgenre as [->|Hgenre]);
    [..|by apply elem_of_nil in Hgenre];
    vm_compute; intuition discriminate.
Qed.

Lemma get_recommendation_genres_witness :
  get_recommendation (λ _, 0%nat) (lit "Mystery") = Return None
  ↔ lit "Mystery" ∈ [lit "Non-Fiction"; lit "Mystery"; lit "Biography";
                     lit "Romance"; lit "Thriller"; lit "Other"].
Proof.
  apply (get_recommendation_genres (λ _, 0%nat) (lit "Mystery")).
  do 4 apply list_elem_of_further. apply list_elem_of_here.
Defined.

(** ** The select boxes of the pages *)

Lemma foldl_options_lookup (key : str) (l : list Book.t) :
  ∀ options : gmap str Z,
    foldl (λ options book, <[option_key book := Book.id book]> options)
      options l !! key
    = match last (filter (λ book, option_key book = key) l) with
      | Some book => Some (Book.id book)
      | None => options !! key
      end.
Proof.
  induction l as [|b l IH]; intros options; [done|].
  cbn [foldl]. rewrite IH, filter_cons.
  destruct (decide (option_key b = key)) as [<-|Hne].
  - destruct (filter _ l) as [|b' l'] eqn:Hf.
    + cbn [last]. by rewrite lookup_insert_eq.
    + rewrite last_cons_cons.
      destruct (last (b' :: l')) eqn:Hlast; [done|].
      by apply last_None in Hlast.
  - destruct (last _); [done|]. by rewrite lookup_insert_ne.
Qed.

Lemma remove_book_present book_id self :
  has_id book_id (library self) → (remove_book book_id self).1 = true.
Proof.
  intros Hhas%count_id_present. unfold remove_book.
  pose proof (filter_other_ids_length book_id (library self)).
  rewrite bool_decide_eq_true_2; [done|].
  cbn [library set_library]. lia.
Qed.

Lemma update_progress_present today current_month book_id p self :
  has_id book_id (library self) →
  (update_progress today current_month book_id p self).1 ≠ Returned false
  ∧ (streak_update_returns today (user_data self) →
     (update_progress today current_month book_id p self).1 = Returned true).
Proof.
  intros (i & book & Hfind)%has_id_find.
  rewrite (update_progress_found _ _ _ _ _ i book) by done.
  split; [apply progress_updated_not_false|].
  intros Hret. unfold progress_updated.
  destruct (bool_decide (p = 100) && negb (Book.read book)); [|done].
  destruct (on_book_completed_returns today current_month
              (set_book i (Book.set_read true
                             (Book.set_progress (clamp p) book)) self) Hret)
    as (self1 & _ & ->).
  done.
Qed.

(** The select boxes of the Reading Progress and Remove Book pages offer
    the keys of [book_options].  Every book has an entry under its key;
    the entry holds the id of the last book with that key (an earlier
    book with the same title and author is shadowed); and the id behind
    any entry is carried by some record, so [remove_book] called with it
    returns [True] and [update_progress] called with it never returns
    [False]: it returns [True], unless the streak update of a completion
    raises. *)
Theorem book_options_spec (self : LibraryManager) (key : str) :
  book_options self !! key
    = Book.id <$> last (filter (λ book, option_key book = key) (library self))
  ∧ (∀ book, book ∈ library self →
       is_Some (book_options self !! option_key book))
  ∧ (∀ book_id, book_options self !! key = Some book_id →
       (∃ book, book ∈ library self ∧ option_key book = key
                ∧ Book.id book = book_id)
       ∧ (remove_book book_id self).1 = true
       ∧ ∀ today current_month p,
           (update_progress today current_month book_id p self).1
           ≠ Returned false
           ∧ (streak_update_returns today (user_data self) →
              (update_progress today current_month book_id p self).1
              = Returned true)).
Proof.
  assert (∀ key', book_options self !! key'
    = Book.id <$> last (filter (λ book, option_key book = key') (library self)))
    as Hlookup.
  { intros key'. unfold book_options. rewrite foldl_options_lookup.
    by destruct (last _). }
  split_and!.
  - apply Hlookup.
  - intros book Hbook. rewrite Hlookup.
    assert (book ∈ filter (λ b, option_key b = option_key book) (library self))
      as Hin by (by apply list_elem_of_filter).
    destruct (filter _ (library self)) as [|b l] using rev_ind;
      [by apply elem_of_nil in Hin|].
    rewrite last_snoc. by eexists.
  - intros book_id. rewrite Hlookup.
    destruct (last _) as [book|] eqn:Hlast; [|done].
    intros [= <-].
    assert (book ∈ library self ∧ option_key book = key) as [Hin Hkey].
    { apply last_Some in Hlast as [l' Hl'].
      assert (book ∈ filter (λ b, option_key b = key) (library self)) as Hb
        by (rewrite Hl'; set_solver).
      apply list_elem_of_filter in Hb. tauto. }
    assert (has_id (Book.id book) (library self)) as Hhas by (by exists book).
    split_and!.
    + by exists book.
    + by apply remove_book_present.
    + intros. by apply update_progress_present.
Qed.

Lemma book_options_spec_witness :
  (∃ book, book ∈ library after_removal_and_add
           ∧ option_key book = lit "Solaris (Lem)" ∧ Book.id book = 3)
  ∧ (remove_book 3 after_removal_and_add).1 = true
  ∧ ∀ today current_month p,
      (update_progress today current_month 3 p after_removal_and_add).1
      ≠ Returned false
      ∧ (streak_update_returns today (user_data after_removal_and_add) →
         (update_progress today current_month 3 p after_removal_and_add).1
         = Returned true).
Proof.
  destruct (book_options_spec after_removal_and_add (lit "Solaris (Lem)"))
    as (_ & _ & Hentry).
  apply Hentry. reflexivity.
Defined.

Lemma run_from_load_invariant_witness :
  library_invariant
    (library
       (run 2026
          [AddBook (lit "2026-11-03T09:31:00") (lit "Solaris") (lit "Lem")
             1961 (lit "Sci-Fi") false None [] None;
           UpdateProgress nov_3_2026 11 1 100; RemoveBook 1]
          (init 11 JSONDecodeError UserFileUnreadable))).
Proof.
  apply (run_from_load_invariant 2026 11 JSONDecodeError UserFileUnreadable).
  - exact I.
  - repeat constructor. simpl. lia.
Defined.
